(** * The Huggies widget server: registry, dispatch and tool handlers

    A shallow embedding of [huggies_server_python/main.py].  Python values
    that travel through the protocol (tool arguments, structured content,
    metadata) are values of [pyval]; Python [int] is [Z], Python [float] is
    an IEEE binary64 [float], Python [str] is [string] read as a sequence of
    code points below 128.  Dictionaries that are only ever looked up
    ([WIDGETS_BY_ID], [WIDGETS_BY_URI], [tool_to_widget], keyword
    arguments) are [gmap]s; dictionaries whose order is observable
    ([_TOOL_FUNCTIONS], JSON objects that are sent back) are association
    lists. *)

From Stdlib Require Import ZArith List Ascii String Bool Lia Permutation Sorted.
From Stdlib Require Import Uint63 Floats.
From stdpp Require Import base option strings gmap.

Import ListNotations.
Local Open Scope string_scope.
Local Open Scope Z_scope.

(** ** Python strings *)

Module PyStr.

(** [str.lower] on the code points the model covers: [A]..[Z] move to
    [a]..[z], everything else stays. *)
Definition lower_char (c : ascii) : ascii :=
  let n := nat_of_ascii c in
  if ((65 <=? n) && (n <=? 90))%nat then ascii_of_nat (n + 32) else c.

Fixpoint lower (s : string) : string :=
  match s with
  | EmptyString => EmptyString
  | String c t => String (lower_char c) (lower t)
  end.

(** [needle in hay] *)
Fixpoint is_in (needle hay : string) : bool :=
  if String.prefix needle hay then true
  else match hay with
       | EmptyString => false
       | String _ t => is_in needle t
       end.

Definition startswith (s p : string) : bool := String.prefix p s.

(** [str.isspace] for one code point below 128: tab, line feed, vertical
    tab, form feed, carriage return, the four separators 28..31, space. *)
Definition is_space (c : ascii) : bool :=
  let n := nat_of_ascii c in
  (((9 <=? n) && (n <=? 13)) || ((28 <=? n) && (n <=? 32)))%nat.

Definition is_empty (s : string) : bool :=
  match s with EmptyString => true | String _ _ => false end.

Definition snoc (s : string) (c : ascii) : string := s +:+ String c EmptyString.

(** [s.split()]: maximal runs of non-space characters. *)
Fixpoint split_go (cur s : string) : list string :=
  match s with
  | EmptyString => if is_empty cur then [] else [cur]
  | String c t =>
      if is_space c
      then (if is_empty cur then split_go EmptyString t
            else cur :: split_go EmptyString t)
      else split_go (snoc cur c) t
  end.

Definition split (s : string) : list string := split_go EmptyString s.

(** [s.split(sep)] for a one-character separator: never empty. *)
Fixpoint split_on_go (sep : ascii) (cur s : string) : list string :=
  match s with
  | EmptyString => [cur]
  | String c t =>
      if Ascii.eqb c sep then cur :: split_on_go sep EmptyString t
      else split_on_go sep (snoc cur c) t
  end.

Definition split_on (sep : ascii) (s : string) : list string :=
  split_on_go sep EmptyString s.

Fixpoint lstrip (s : string) : string :=
  match s with
  | EmptyString => EmptyString
  | String c t => if is_space c then lstrip t else s
  end.

Definition rstrip (s : string) : string := String.rev (lstrip (String.rev s)).

(** [s.strip()] *)
Definition strip (s : string) : string := rstrip (lstrip s).

(** [s[:n]] for a literal [n >= 0] *)
Fixpoint take (n : nat) (s : string) : string :=
  match n, s with
  | O, _ => EmptyString
  | _, EmptyString => EmptyString
  | S n', String c t => String c (take n' t)
  end.

Definition digit_of (c : ascii) : option Z :=
  let n := nat_of_ascii c in
  if ((48 <=? n) && (n <=? 57))%nat then Some (Z.of_nat (n - 48)) else None.

(** The digits of an integer literal: one or more digits, single
    underscores allowed between two digits.  [prev] tells whether the
    previous character was a digit. *)
Fixpoint digits_go (acc : Z) (prev : bool) (s : string) : option Z :=
  match s with
  | EmptyString => if prev then Some acc else None
  | String c t =>
      match digit_of c with
      | Some d => digits_go (10 * acc + d) true t
      | None =>
          if Ascii.eqb c "_"%char && prev
          then match t with
               | String c' _ =>
                   match digit_of c' with
                   | Some _ => digits_go acc false t
                   | None => None
                   end
               | EmptyString => None
               end
          else None
      end
  end.

(** The number of digits in a string, leading zeros included and
    underscores left out. *)
Fixpoint count_digits (s : string) : Z :=
  match s with
  | EmptyString => 0
  | String c t =>
      match digit_of c with
      | Some _ => 1 + count_digits t
      | None => count_digits t
      end
  end.

(** The interpreter's limit on the digits of a decimal literal that [int]
    converts, [sys.int_info.default_max_str_digits]. The module does not
    change it. *)
Definition int_max_str_digits : Z := 4300.

(** The magnitude of a literal: its digits, when there are no more of
    them than the limit allows. *)
Definition magnitude (t : string) : option Z :=
  if int_max_str_digits <? count_digits t then None else digits_go 0 false t.

(** [int(s)] for a string: surrounding white space is dropped, one sign
    is allowed; [None] is [ValueError], which is also what a literal of
    more digits than the limit gives. *)
Definition int_of_str (s : string) : option Z :=
  match strip s with
  | String "+" t => magnitude t
  | String "-" t => Z.opp <$> magnitude t
  | t => magnitude t
  end.

Definition digit_char (d : Z) : ascii := ascii_of_nat (48 + Z.to_nat d).

Fixpoint str_of_pos_go (fuel : nat) (n : Z) (acc : string) : string :=
  match fuel with
  | O => acc
  | S fuel' =>
      let acc' := String (digit_char (n mod 10)) acc in
      if n <? 10 then acc' else str_of_pos_go fuel' (n / 10) acc'
  end.

(** [str(n)] for an integer. *)
Definition str_of_int (n : Z) : string :=
  if n <? 0
  then String "-" (str_of_pos_go (S (Z.to_nat (Z.log2 (- n)))) (- n) EmptyString)
  else str_of_pos_go (S (Z.to_nat (Z.log2 n))) n EmptyString.

End PyStr.

(** ** Python values *)

#[local] Set Warnings "-register-all,-inexact-float".

(** The JSON-shaped values of the protocol: tool arguments, structured
    content and metadata. A [PDict] keeps its keys in insertion order. *)
Inductive pyval : Type :=
| PNone
| PBool (b : bool)
| PInt (n : Z)
| PFloat (x : float)
| PStr (s : string)
| PList (l : list pyval)
| PDict (d : list (string * pyval)).

(** Truth value of an object, as [if v:], [not v] and [v or w] test it. *)
Definition truthy (v : pyval) : bool :=
  match v with
  | PNone => false
  | PBool b => b
  | PInt n => negb (n =? 0)
  | PFloat x => negb (PrimFloat.eqb x 0%float)
  | PStr s => negb (PyStr.is_empty s)
  | PList l => match l with [] => false | _ => true end
  | PDict d => match d with [] => false | _ => true end
  end.

(** [v or w] *)
Definition py_or (v w : pyval) : pyval := if truthy v then v else w.

(** [type(v).__name__] *)
Definition type_name (v : pyval) : string :=
  match v with
  | PNone => "NoneType"
  | PBool _ => "bool"
  | PInt _ => "int"
  | PFloat _ => "float"
  | PStr _ => "str"
  | PList _ => "list"
  | PDict _ => "dict"
  end.

(** [l[:n]]: a negative [n] counts from the end. *)
Definition slice_to {A : Type} (n : Z) (l : list A) : list A :=
  if 0 <=? n then firstn (Z.to_nat n) l
  else firstn (length l - Z.to_nat (- n)) l.

(** ** Exceptions *)

(** What a handler can raise. Every constructor is an instance of a class
    derived from Python's [Exception]; [OtherException] stands for any
    further such instance, named by its class. *)
Inductive exn : Type :=
| TypeError_unexpected_keyword (fname : string) (unexpected : list string)
| TypeError_missing_argument (fname : string) (missing : list string)
| AttributeError (obj_type attr : string)
| TypeError_float_argument (obj_type : string)
| ValueError_float (s : string)
| OverflowError_float
| TypeError_slice_index (obj_type : string)
| ValueError_int (s : string)
| KeyError (key : string)
| IndexError
| OtherException (cls msg : string).

(** A computation that returns or raises. *)
Inductive outcome (A : Type) : Type :=
| Return (a : A)
| Raise (e : exn).
Arguments Return {A} a.
Arguments Raise {A} e.

#[global] Instance outcome_ret : MRet outcome := fun A a => Return a.

#[global] Instance outcome_bind : MBind outcome := fun A B k m =>
  match m with
  | Return a => k a
  | Raise e => Raise e
  end.

(** ** Wire types ([mcp.types]) *)

Definition meta_dict := list (string * pyval).

Record TextContent := { tc_type : string; tc_text : string }.

Record CallToolResult := {
  content : list TextContent;
  structuredContent : option pyval;
  isError : bool;
  _meta : option meta_dict
}.

Record TextResourceContents := {
  trc_uri : string;
  trc_mimeType : string;
  trc_text : string;
  trc_meta : option meta_dict
}.

Record ReadResourceResult := {
  contents : list TextResourceContents;
  rr_meta : option meta_dict
}.

Record Tool := {
  tool_name : string;
  tool_title : string;
  tool_description : string;
  inputSchema : pyval;
  tool_meta : meta_dict;
  annotations : list (string * bool)
}.

(** ** The widget catalog *)

Record HuggiesWidget := {
  identifier : string;
  title : string;
  template_uri : string;
  invoking : string;
  invoked : string;
  html : string;
  response_text : string
}.

Definition MIME_TYPE : string := "text/html+skybridge".

Definition _resource_description (widget : HuggiesWidget) : string :=
  title widget +:+ " widget markup".

Definition _tool_meta (widget : HuggiesWidget) : meta_dict :=
  [ ("openai/outputTemplate", PStr (template_uri widget));
    ("openai/toolInvocation/invoking", PStr (invoking widget));
    ("openai/toolInvocation/invoked", PStr (invoked widget));
    ("openai/widgetAccessible", PBool true);
    ("openai/resultCanProduceWidget", PBool true) ].

Definition _tool_invocation_meta (widget : HuggiesWidget) : meta_dict :=
  [ ("openai/toolInvocation/invoking", PStr (invoking widget));
    ("openai/toolInvocation/invoked", PStr (invoked widget)) ].

(** ** The knowledge store *)

(** One record of [mock_knowledge.json]. A field is [None] when the key is
    absent from the JSON object, which is what [item.get] observes. *)
Record KnowledgeRecord := {
  kr_id : option string;
  kr_title : option string;
  kr_question : option string;
  kr_answer : option string;
  kr_tags : option (list string);
  kr_source_url : option string;
  kr_type : option string
}.

(** [item.get(key, "")] *)
Definition get_or_empty (field : option string) : string := default "" field.

(** [hits.sort(key=lambda x: x[0], reverse=True)]: a stable sort, larger
    keys first. Inserting from the right keeps an element in front of the
    later elements with the same key. *)
Fixpoint insert_desc {A : Type} (h : Z * A) (l : list (Z * A)) : list (Z * A) :=
  match l with
  | [] => [h]
  | x :: t => if fst x <=? fst h then h :: x :: t else x :: insert_desc h t
  end.

Definition sort_desc {A : Type} (l : list (Z * A)) : list (Z * A) :=
  fold_right insert_desc [] l.

(** ** Builtins of the interpreter *)

(** The builtins the handlers call and whose results are fixed by the
    Python runtime, not by this repository. *)
Record PyRuntime := {
  (** [float(s)] for a string; [None] is [ValueError] *)
  float_of_str : string -> option float;
  (** [float(n)] for an integer of magnitude [2^63] or more; [None] is
      [OverflowError] *)
  float_of_big_int : Z -> option float;
  (** [round(x, ndigits)] *)
  round_float : float -> Z -> float;
  (** [str(x)] for a float *)
  str_of_float : float -> string;
  (** [str(v)] for a list or a dict *)
  str_of_container : pyval -> string;
  (** [str(e)] for an exception *)
  str_of_exn : exn -> string;
  (** the successive results of [random.random()] during one call *)
  random_random : nat -> float
}.

Definition float_of_Z (n : Z) : float :=
  if n <? 0 then PrimFloat.opp (PrimFloat.of_uint63 (Uint63.of_Z (- n)))
  else PrimFloat.of_uint63 (Uint63.of_Z n).

(** [float(v)] *)
Definition py_float (rt : PyRuntime) (v : pyval) : outcome float :=
  match v with
  | PFloat x => Return x
  | PInt n =>
      if Z.abs n <? 2 ^ 63 then Return (float_of_Z n)
      else match float_of_big_int rt n with
           | Some x => Return x
           | None => Raise OverflowError_float
           end
  | PBool b => Return (if b then 1%float else 0%float)
  | PStr s =>
      match float_of_str rt s with
      | Some x => Return x
      | None => Raise (ValueError_float s)
      end
  | _ => Raise (TypeError_float_argument (type_name v))
  end.

(** [str(v)], which is what an f-string field [{v}] inserts. *)
Definition py_str (rt : PyRuntime) (v : pyval) : string :=
  match v with
  | PNone => "None"
  | PBool b => if b then "True" else "False"
  | PInt n => PyStr.str_of_int n
  | PFloat x => str_of_float rt x
  | PStr s => s
  | _ => str_of_container rt v
  end.

(** [v.strip()], [v.lower()], [v.split(sep)]: methods of [str] only. *)
Definition meth_strip (v : pyval) : outcome string :=
  match v with
  | PStr s => Return (PyStr.strip s)
  | _ => Raise (AttributeError (type_name v) "strip")
  end.

Definition meth_lower (v : pyval) : outcome string :=
  match v with
  | PStr s => Return (PyStr.lower s)
  | _ => Raise (AttributeError (type_name v) "lower")
  end.

Definition meth_split (v : pyval) (sep : ascii) : outcome (list string) :=
  match v with
  | PStr s => Return (PyStr.split_on sep s)
  | _ => Raise (AttributeError (type_name v) "split")
  end.

(** [l[:v]] with an argument as the bound: [None] keeps the list, an
    integer or a boolean is an index, anything else is a [TypeError]. *)
Definition slice_to_val {A : Type} (v : pyval) (l : list A) : outcome (list A) :=
  match v with
  | PNone => Return l
  | PInt n => Return (slice_to n l)
  | PBool b => Return (slice_to (if b then 1 else 0) l)
  | _ => Raise (TypeError_slice_index (type_name v))
  end.

(** [int(s)] for a string *)
Definition py_int_of_str (s : string) : outcome Z :=
  match PyStr.int_of_str s with
  | Some n => Return n
  | None => Raise (ValueError_int s)
  end.

(** [l[-1]] *)
Definition getitem_last {A : Type} (l : list A) : outcome A :=
  match last l with
  | Some a => Return a
  | None => Raise IndexError
  end.

(** [try: x = m / except Exception: x = dflt] *)
Definition try_or {A : Type} (m : outcome A) (dflt : A) : A :=
  match m with
  | Return a => a
  | Raise _ => dflt
  end.

(** [d[key]] on a dictionary that is only looked up. *)
Definition dict_getitem {V : Type} (d : gmap string V) (key : string) : outcome V :=
  match d !! key with
  | Some v => Return v
  | None => Raise (KeyError key)
  end.

(** [d.get(key, dflt)] on an ordered dictionary. *)
Fixpoint dict_get {V : Type} (d : list (string * V)) (key : string) : option V :=
  match d with
  | [] => None
  | (k, v) :: t => if String.eqb k key then Some v else dict_get t key
  end.

(** [d.update(u)]: a key already present keeps its position. *)
Fixpoint dict_set {V : Type} (d : list (string * V)) (key : string) (v : V)
  : list (string * V) :=
  match d with
  | [] => [(key, v)]
  | (k, w) :: t => if String.eqb k key then (k, v) :: t else (k, w) :: dict_set t key v
  end.

Definition dict_update {V : Type} (d u : list (string * V)) : list (string * V) :=
  fold_left (fun acc kv => dict_set acc (fst kv) (snd kv)) u d.

(** ** Function objects and calls *)

(** What [inspect.signature] shows of one parameter. The module begins with
    [from __future__ import annotations], so an annotation is the source
    text of the type hint. *)
Record SigParameter := {
  param_name : string;
  param_annotation : option string;
  param_default : option pyval
}.

(** What a handler hands back: an envelope, or some other object. *)
Inductive handler_result : Type :=
| ResultEnvelope (r : CallToolResult)
| ResultOther (v : pyval).

(** A tool function: its name, docstring, parameters, and its body as a
    function of the bound arguments. *)
Record Function := {
  fn_name : string;
  fn_doc : option string;
  fn_params : list SigParameter;
  fn_body : (string -> pyval) -> outcome handler_result
}.

Definition has_name (names : list string) (k : string) : bool :=
  existsb (String.eqb k) names.

(** A call that unpacks a dictionary of keyword arguments: a keyword that
    names no parameter, or a parameter
    without default that no keyword names, is a [TypeError]; otherwise
    every parameter is bound to its keyword or to its default. *)
Definition call (f : Function) (kwargs : gmap string pyval) : outcome handler_result :=
  let names := map param_name (fn_params f) in
  let unexpected := List.filter (fun k => negb (has_name names k)) (map fst (map_to_list kwargs)) in
  let missing :=
    List.filter (fun p => match param_default p, kwargs !! param_name p with
                     | None, None => true
                     | _, _ => false
                     end) (fn_params f) in
  match unexpected, missing with
  | _ :: _, _ => Raise (TypeError_unexpected_keyword (fn_name f) unexpected)
  | [], _ :: _ => Raise (TypeError_missing_argument (fn_name f) (map param_name missing))
  | [], [] =>
      fn_body f (fun name =>
        match kwargs !! name with
        | Some v => v
        | None =>
            match List.find (fun p => String.eqb (param_name p) name) (fn_params f) with
            | Some p => default PNone (param_default p)
            | None => PNone
            end
        end)
  end.

(** ** Requests and results *)

Record CallToolRequest := {
  req_name : string;
  req_arguments : option (gmap string pyval)
}.

Record ReadResourceRequest := { req_uri : string }.

Inductive ServerResult : Type :=
| CallToolResponse (r : CallToolResult)
| ReadResourceResponse (r : ReadResourceResult).

Definition text_content (text : string) : TextContent :=
  {| tc_type := "text"; tc_text := text |}.

(** ** Envelopes as objects *)

(** [CallToolResult] is a pydantic model. Its metadata field is declared
    under the name [meta] with the alias [_meta]: the alias is the keyword
    of the constructor and the key on the wire, and the record
    [CallToolResult] above names the field by it. As an attribute of an
    object the field is [meta]; [_meta] names no field. An object can
    carry attributes that are no fields: assigning to a name that begins
    with an underscore stores one, and looking such a name up finds what
    was stored under it and nothing else. What is sent is made of the
    fields alone. *)
Record ModelObject := {
  model_fields : CallToolResult;
  own_attributes : list (string * pyval)
}.

(** The object a call of the constructor makes. *)
Definition construct (r : CallToolResult) : ModelObject :=
  {| model_fields := r; own_attributes := [] |}.

(** [hasattr(obj, name)], [obj.name] and [obj.name = v], for a name that
    begins with an underscore. *)
Definition hasattr (obj : ModelObject) (name : string) : bool :=
  match dict_get (own_attributes obj) name with
  | Some _ => true
  | None => false
  end.

Definition getattr (obj : ModelObject) (name : string) : outcome pyval :=
  match dict_get (own_attributes obj) name with
  | Some v => Return v
  | None => Raise (AttributeError "CallToolResult" name)
  end.

Definition setattr (obj : ModelObject) (name : string) (v : pyval) : ModelObject :=
  {| model_fields := model_fields obj;
     own_attributes := dict_set (own_attributes obj) name v |}.

(** [types.ServerResult(obj)]: the envelope that goes out. *)
Definition serialized (obj : ModelObject) : CallToolResult := model_fields obj.

(** ** The module's globals and functions *)

Section Server.

(** The interpreter's builtins, the records of [mock_knowledge.json] and
    the markup [_load_widget_html] finds for a component name. The module
    is only imported when both files are found, so the loads succeed. *)
Variable rt : PyRuntime.
Variable KNOWLEDGE : list KnowledgeRecord.
Variable _load_widget_html : string -> string.

Definition opt_str (field : option string) : pyval :=
  match field with
  | Some s => PStr s
  | None => PNone
  end.

(** [item.get("id") == item_id] *)
Definition id_equals (field : option string) (item_id : pyval) : bool :=
  match field, item_id with
  | Some s, PStr s' => String.eqb s s'
  | None, PNone => true
  | _, _ => false
  end.

Definition find_by_id (item_id : pyval) : option KnowledgeRecord :=
  List.find (fun item => id_equals (kr_id item) item_id) KNOWLEDGE.

(** The score [keyword_search] accumulates for one record. *)
Definition score_of (q : string) (item : KnowledgeRecord) : Z :=
  let score := 0 in
  let score :=
    if PyStr.is_in q (PyStr.lower (get_or_empty (kr_title item)))
    then score + 5 else score in
  let score :=
    if PyStr.is_in q (PyStr.lower (get_or_empty (kr_question item)))
    then score + 4 else score in
  let score :=
    fold_left (fun score tag =>
                 if PyStr.is_in (PyStr.lower tag) q then score + 3 else score)
              (default [] (kr_tags item)) score in
  let ans := PyStr.lower (get_or_empty (kr_answer item)) in
  let score :=
    fold_left (fun score w =>
                 if negb (PyStr.is_empty w) && PyStr.is_in w ans
                 then score + 1 else score)
              (PyStr.split q) score in
  score.

Definition keyword_search (query : string) (top_n : Z) : list KnowledgeRecord :=
  let q := PyStr.lower query in
  let hits :=
    fold_left (fun hits item =>
                 let score := score_of q item in
                 if 0 <? score then (hits ++ [(score, item)])%list else hits)
              KNOWLEDGE [] in
  let hits := sort_desc hits in
  slice_to top_n (map snd hits).

Definition widgets : list HuggiesWidget :=
  [ {| identifier := "huggies-cards";
       title := "Show FAQ Cards";
       template_uri := "ui://widget/huggies-cards.html";
       invoking := "Searching FAQs";
       invoked := "Found FAQ results";
       html := _load_widget_html "huggies-cards";
       response_text := "Displayed FAQ cards!" |};
    {| identifier := "huggies-size-calc";
       title := "Diaper Size Calculator";
       template_uri := "ui://widget/huggies-size-calc.html";
       invoking := "Calculating diaper size";
       invoked := "Size recommendation ready";
       html := _load_widget_html "huggies-size-calc";
       response_text := "Calculated diaper size!" |};
    {| identifier := "huggies-map";
       title := "Store Locator Map";
       template_uri := "ui://widget/huggies-map.html";
       invoking := "Finding nearby stores";
       invoked := "Store locations found";
       html := _load_widget_html "huggies-map";
       response_text := "Displayed store map!" |};
    {| identifier := "huggies-offers";
       title := "Coupons & Offers";
       template_uri := "ui://widget/huggies-offers.html";
       invoking := "Loading current offers";
       invoked := "Offers displayed";
       html := _load_widget_html "huggies-offers";
       response_text := "Showed available offers!" |};
    {| identifier := "huggies-names";
       title := "Baby Name Suggestions";
       template_uri := "ui://widget/huggies-names.html";
       invoking := "Generating name suggestions";
       invoked := "Name suggestions ready";
       html := _load_widget_html "huggies-names";
       response_text := "Displayed name suggestions!" |};
    {| identifier := "huggies-gender";
       title := "Gender Predictor";
       template_uri := "ui://widget/huggies-gender.html";
       invoking := "Predicting gender";
       invoked := "Prediction complete";
       html := _load_widget_html "huggies-gender";
       response_text := "Showed gender prediction!" |} ].

(** [{key(w): w for w in ws}]: a later widget replaces an earlier one
    under the same key. *)
Definition index_by (key : HuggiesWidget -> string) (ws : list HuggiesWidget)
  : gmap string HuggiesWidget :=
  fold_left (fun d widget => <[key widget := widget]> d) ws ∅.

Definition WIDGETS_BY_ID : gmap string HuggiesWidget := index_by identifier widgets.
Definition WIDGETS_BY_URI : gmap string HuggiesWidget := index_by template_uri widgets.

(** The table both [_list_tools] and [_call_tool_request] build. *)
Definition tool_to_widget : gmap string string :=
  list_to_map
    [ ("get_faq", "huggies-cards");
      ("list_faqs", "huggies-cards");
      ("get_item_by_id", "huggies-cards");
      ("diaper_size_calc", "huggies-size-calc");
      ("map_widget", "huggies-map");
      ("coupons", "huggies-offers");
      ("suggest_names", "huggies-names");
      ("predict_gender", "huggies-gender") ].

(** [WIDGETS_BY_ID.get(widget_id) if widget_id else widgets[0]], for
    [widget_id = tool_to_widget.get(name)]. The result is [None] when the
    identifier is in no widget. *)
Definition bound_widget (name : string) : outcome (option HuggiesWidget) :=
  match tool_to_widget !! name with
  | Some widget_id =>
      if negb (PyStr.is_empty widget_id) then Return (WIDGETS_BY_ID !! widget_id)
      else match widgets with
           | w :: _ => Return (Some w)
           | [] => Raise IndexError
           end
  | None =>
      match widgets with
      | w :: _ => Return (Some w)
      | [] => Raise IndexError
      end
  end.

(** A metadata builder applied to what may be [None]: reading an
    attribute of [None] raises. *)
Definition on_widget (build : HuggiesWidget -> meta_dict) (first_attr : string)
    (w : option HuggiesWidget) : outcome meta_dict :=
  match w with
  | Some widget => Return (build widget)
  | None => Raise (AttributeError "NoneType" first_attr)
  end.

(** *** Tool implementations *)

Definition dquote : string := String (ascii_of_nat 34) EmptyString.

Definition faq_result (m : KnowledgeRecord) : list (string * pyval) :=
  [ ("id", opt_str (kr_id m));
    ("title", opt_str (kr_title m));
    ("answer", opt_str (kr_answer m));
    ("source_url", opt_str (kr_source_url m));
    ("type", opt_str (kr_type m));
    ("tags", PList (map PStr (default [] (kr_tags m)))) ].

Definition faq_card (r : list (string * pyval)) : pyval :=
  PDict [ ("type", PStr "card");
          ("title", default (PStr "") (dict_get r "title"));
          ("text", default (PStr "") (dict_get r "answer"));
          ("meta", PDict [ ("id", default (PStr "") (dict_get r "id"));
                           ("source_url", default (PStr "") (dict_get r "source_url")) ]) ].

(** The ranker reads only string fields of well-formed records and raises
    nothing on them, so the [except Exception] around its call has no
    case to handle. *)
Definition get_faq (query : pyval) : outcome handler_result :=
  widget ← dict_getitem WIDGETS_BY_ID "huggies-cards";
  q ← meth_strip (py_or query (PStr ""));
  if PyStr.is_empty q then
    let text := "Query is required" in
    let meta := _tool_invocation_meta widget in
    mret (ResultEnvelope
      {| content := [text_content text];
         structuredContent := Some (PDict
           [ ("text", PStr text);
             ("results", PList []);
             ("widget", PDict [ ("widget_type", PStr "cards");
                                ("cards", PList []) ]) ]);
         isError := false;
         _meta := Some meta |})
  else
    let matches := keyword_search q 3 in
    let matches :=
      match matches with
      | [] => slice_to 3 KNOWLEDGE
      | _ :: _ => matches
      end in
    let results := map faq_result matches in
    let text :=
      match results with
      | top :: _ =>
          py_str rt (default PNone (dict_get top "title")) +:+ ": "
            +:+ py_str rt (default PNone (dict_get top "answer"))
      | [] => "No matching FAQ found for " +:+ dquote +:+ q +:+ dquote +:+ "."
      end in
    let cards := map faq_card results in
    let meta := _tool_invocation_meta widget in
    mret (ResultEnvelope
      {| content := [text_content text];
         structuredContent := Some (PDict
           [ ("text", PStr text);
             ("results", PList (map PDict results));
             ("widget", PDict [ ("widget_type", PStr "cards");
                                ("cards", PList cards) ]) ]);
         isError := false;
         _meta := Some meta |}).

Definition list_faqs : outcome handler_result :=
  widget ← dict_getitem WIDGETS_BY_ID "huggies-cards";
  let items :=
    map (fun it => PDict [ ("id", opt_str (kr_id it));
                           ("title", opt_str (kr_title it));
                           ("type", opt_str (kr_type it)) ]) KNOWLEDGE in
  let text := PyStr.str_of_int (Z.of_nat (length items)) +:+ " FAQs available." in
  let meta := _tool_invocation_meta widget in
  mret (ResultEnvelope
    {| content := [text_content text];
       structuredContent := Some (PDict [ ("text", PStr text); ("results", PList items) ]);
       isError := false;
       _meta := Some meta |}).

(** A record as the JSON object it was loaded from: the keys present. *)
Definition record_fields (item : KnowledgeRecord) : list (string * pyval) :=
  let str_field key field :=
    match field with Some s => [(key, PStr s)] | None => [] end in
  (str_field "id" (kr_id item) ++ str_field "title" (kr_title item)
   ++ str_field "question" (kr_question item) ++ str_field "answer" (kr_answer item)
   ++ match kr_tags item with Some ts => [("tags", PList (map PStr ts))] | None => [] end
   ++ str_field "source_url" (kr_source_url item) ++ str_field "type" (kr_type item))%list.

Definition get_item_by_id (item_id : pyval) : outcome handler_result :=
  widget ← dict_getitem WIDGETS_BY_ID "huggies-cards";
  let item := find_by_id item_id in
  match item with
  | Some it =>
      if truthy (PDict (record_fields it)) then
        let text :=
          py_str rt (opt_str (kr_title it)) +:+ ": "
            +:+ PyStr.take 300 (get_or_empty (kr_answer it)) +:+ "..." in
        let meta := _tool_invocation_meta widget in
        mret (ResultEnvelope
          {| content := [text_content text];
             structuredContent := Some (PDict [ ("text", PStr text);
                                                ("item", PDict (record_fields it)) ]);
             isError := false;
             _meta := Some meta |})
      else
        let text := "Item with id=" +:+ py_str rt item_id +:+ " not found" in
        let meta := _tool_invocation_meta widget in
        mret (ResultEnvelope
          {| content := [text_content text];
             structuredContent := Some (PDict [ ("text", PStr text); ("error", PStr text) ]);
             isError := true;
             _meta := Some meta |})
  | None =>
      let text := "Item with id=" +:+ py_str rt item_id +:+ " not found" in
      let meta := _tool_invocation_meta widget in
      mret (ResultEnvelope
        {| content := [text_content text];
           structuredContent := Some (PDict [ ("text", PStr text); ("error", PStr text) ]);
           isError := true;
           _meta := Some meta |})
  end.

Definition is_None (v : pyval) : bool :=
  match v with PNone => true | _ => false end.

(** The chain of [if]/[elif] over the weight in pounds. *)
Definition size_band (w : float) : string * string :=
  if PrimFloat.leb w 10 then ("N (Newborn)", "up to 10 lbs")
  else if PrimFloat.leb 8 w && PrimFloat.leb w 14 then ("1", "8–14 lbs")
  else if PrimFloat.leb 12 w && PrimFloat.leb w 18 then ("2", "12–18 lbs")
  else if PrimFloat.leb 16 w && PrimFloat.leb w 28 then ("3", "16–28 lbs")
  else if PrimFloat.leb 22 w && PrimFloat.leb w 37 then ("4", "22–37 lbs")
  else if PrimFloat.leb 27 w && PrimFloat.leb w 40 then ("5", "27+ lbs (varies by product)")
  else ("6", "35+ lbs").

Definition advice : string :=
  "If you see red marks around the legs, frequent leaks, or difficulty "
    +:+ "closing tabs, consider sizing up.".

Definition diaper_size_calc (weight_kg weight_lb : pyval) : outcome handler_result :=
  widget ← dict_getitem WIDGETS_BY_ID "huggies-size-calc";
  if is_None weight_kg && is_None weight_lb then
    let text := "Please provide weight_kg or weight_lb." in
    let meta := _tool_invocation_meta widget in
    mret (ResultEnvelope
      {| content := [text_content text];
         structuredContent := Some (PDict [ ("text", PStr text); ("error", PStr text) ]);
         isError := true;
         _meta := Some meta |})
  else
    weight_lb ←
      (if is_None weight_lb && negb (is_None weight_kg)
       then kg ← py_float rt weight_kg;
            mret (PFloat (PrimFloat.mul kg 2.2046226218))
       else mret weight_lb);
    w ← py_float rt weight_lb;
    let '(size, range_desc) := size_band w in
    let text :=
      "For approx " +:+ str_of_float rt (round_float rt w 2)
        +:+ " lbs, recommended size: " +:+ size +:+ " (" +:+ range_desc +:+ "). "
        +:+ advice in
    let backend :=
      PDict [ ("weight_lb", PFloat (round_float rt w 2));
              ("recommended_size", PStr size);
              ("weight_range_description", PStr range_desc);
              ("advice", PStr advice) ] in
    let meta := _tool_invocation_meta widget in
    mret (ResultEnvelope
      {| content := [text_content text];
         structuredContent := Some (PDict
           [ ("text", PStr text);
             ("backend", backend);
             ("widget", PDict [ ("widget_type", PStr "info_card");
                                ("data", backend) ]) ]);
         isError := false;
         _meta := Some meta |}).

Definition example_retailers : list (string * string * float) :=
  [ ("Target", "123 Main St", 1.2%float);
    ("Walmart", "456 Market Ave", 2.1%float);
    ("Amazon Pickup Point", "789 Commerce Rd", 3.8%float);
    ("Local Pharmacy", "12 Pharmacy Ln", 0.6%float);
    ("Costco", "55 Warehouse Dr", 4.5%float) ].

(** The loop draws two random numbers per retailer, in order. *)
Definition map_widget (zip_code location limit : pyval) : outcome handler_result :=
  widget ← dict_getitem WIDGETS_BY_ID "huggies-map";
  let base_lat := 28.65195%float in
  let base_lon := 77.23149%float in
  shown ← slice_to_val limit example_retailers;
  let results :=
    imap (fun i r =>
            let '(name, address, distance_miles) := r in
            let step := float_of_Z (Z.of_nat i + 1) in
            let lat :=
              PrimFloat.add base_lat
                (PrimFloat.mul
                   (PrimFloat.mul (PrimFloat.sub (random_random rt (2 * i)) 0.5) 0.02)
                   step) in
            let lon :=
              PrimFloat.add base_lon
                (PrimFloat.mul
                   (PrimFloat.mul (PrimFloat.sub (random_random rt (2 * i + 1)) 0.5) 0.02)
                   step) in
            PDict [ ("name", PStr name);
                    ("address", PStr address);
                    ("zip", py_or zip_code (PStr "00000"));
                    ("distance_miles", PFloat distance_miles);
                    ("lat", PFloat (round_float rt lat 6));
                    ("lon", PFloat (round_float rt lon 6));
                    ("phone", PStr "1800-555-0123") ])
         shown in
  let place := py_or (py_or zip_code location) (PStr "your area") in
  let text :=
    "Found " +:+ PyStr.str_of_int (Z.of_nat (length results)) +:+ " retailers near "
      +:+ py_str rt place +:+ "." in
  let backend := PDict [ ("results", PList results) ] in
  let meta := _tool_invocation_meta widget in
  mret (ResultEnvelope
    {| content := [text_content text];
       structuredContent := Some (PDict
         [ ("text", PStr text);
           ("backend", backend);
           ("widget", PDict [ ("widget_type", PStr "map");
                              ("markers", PList results) ]) ]);
       isError := false;
       _meta := Some meta |}).

Definition offers : list pyval :=
  [ PDict [ ("id", PStr "offer-001");
            ("title", PStr "Save $2 on Huggies Special Delivery");
            ("type", PStr "manufacturer_coupon");
            ("expires", PStr "2026-01-31");
            ("source_url", PStr "https://www.huggies.com/en-us/offers") ];
    PDict [ ("id", PStr "offer-002");
            ("title", PStr "Subscribe & Save 10% on monthly diaper delivery");
            ("type", PStr "subscribe");
            ("expires", PNone);
            ("source_url", PStr "https://www.retailer.example/subscribe") ] ].

Definition coupons : outcome handler_result :=
  widget ← dict_getitem WIDGETS_BY_ID "huggies-offers";
  let text :=
    PyStr.str_of_int (Z.of_nat (length offers)) +:+ " current offers available." in
  let backend := PDict [ ("offers", PList offers) ] in
  let meta := _tool_invocation_meta widget in
  mret (ResultEnvelope
    {| content := [text_content text];
       structuredContent := Some (PDict
         [ ("text", PStr text);
           ("backend", backend);
           ("widget", PDict [ ("widget_type", PStr "offers_list");
                              ("offers", PList offers) ]) ]);
       isError := false;
       _meta := Some meta |}).

Definition base_names : list string :=
  [ "Aria"; "Elowen"; "Kaia"; "Soren"; "Zavian"; "Lumi"; "Aerin"; "Mylo";
    "Renley"; "Zephyr"; "Mira"; "Caspian"; "Nova"; "Orin"; "Junia" ].

Definition suggest_names (prefix count : pyval) : outcome handler_result :=
  widget ← dict_getitem WIDGETS_BY_ID "huggies-names";
  kept ←
    (if negb (truthy prefix) then mret base_names
     else p ← meth_lower prefix;
          mret (List.filter (fun n => PyStr.startswith (PyStr.lower n) p) base_names));
  filtered ← slice_to_val count kept;
  let text :=
    "Here are " +:+ PyStr.str_of_int (Z.of_nat (length filtered))
      +:+ " name suggestions." in
  let backend :=
    PDict [ ("names", PList (map PStr filtered));
            ("prefix", prefix);
            ("count", count) ] in
  let meta := _tool_invocation_meta widget in
  mret (ResultEnvelope
    {| content := [text_content text];
       structuredContent := Some (PDict
         [ ("text", PStr text);
           ("backend", backend);
           ("widget", PDict [ ("widget_type", PStr "names_list");
                              ("names", PList (map PStr filtered)) ]) ]);
       isError := false;
       _meta := Some meta |}).

(** The [try] covers the split, the index and the conversion, so
    whatever they raise leaves ["unknown"]. *)
Definition predict_gender (due_date conception_date : pyval) : outcome handler_result :=
  widget ← dict_getitem WIDGETS_BY_ID "huggies-gender";
  let prediction := "unknown" in
  let prediction :=
    if truthy due_date then
      try_or (parts ← meth_split due_date "-";
              piece ← getitem_last parts;
              day ← py_int_of_str piece;
              mret (if day mod 2 =? 1 then "boy" else "girl"))
             "unknown"
    else prediction in
  let text := "Playful prediction: " +:+ prediction +:+ " (not medical)." in
  let backend :=
    PDict [ ("prediction", PStr prediction);
            ("due_date", due_date);
            ("conception_date", conception_date) ] in
  let meta := _tool_invocation_meta widget in
  mret (ResultEnvelope
    {| content := [text_content text];
       structuredContent := Some (PDict
         [ ("text", PStr text);
           ("backend", backend);
           ("widget", PDict [ ("widget_type", PStr "gender_predictor");
                              ("prediction", PStr prediction) ]) ]);
       isError := false;
       _meta := Some meta |}).

(** *** The tool functions as objects *)

Definition param (name : string) (annotation : string) (dflt : option pyval)
  : SigParameter :=
  {| param_name := name; param_annotation := Some annotation; param_default := dflt |}.

Definition get_faq_fn : Function :=
  {| fn_name := "get_faq";
     fn_doc := Some "Search FAQs and return results with widget cards.";
     fn_params := [ param "query" "str" None ];
     fn_body := fun arg => get_faq (arg "query") |}.

Definition list_faqs_fn : Function :=
  {| fn_name := "list_faqs";
     fn_doc := Some "List all available FAQs.";
     fn_params := [];
     fn_body := fun _ => list_faqs |}.

Definition get_item_by_id_fn : Function :=
  {| fn_name := "get_item_by_id";
     fn_doc := Some "Get a specific FAQ item by ID.";
     fn_params := [ param "item_id" "str" None ];
     fn_body := fun arg => get_item_by_id (arg "item_id") |}.

Definition diaper_size_calc_fn : Function :=
  {| fn_name := "diaper_size_calc";
     fn_doc := Some "Calculate recommended diaper size based on baby's weight.";
     fn_params := [ param "weight_kg" "Optional[float]" (Some PNone);
                    param "weight_lb" "Optional[float]" (Some PNone) ];
     fn_body := fun arg => diaper_size_calc (arg "weight_kg") (arg "weight_lb") |}.

Definition map_widget_fn : Function :=
  {| fn_name := "map_widget";
     fn_doc := Some "Find retailers near a location and display on a map.";
     fn_params := [ param "zip_code" "Optional[str]" (Some PNone);
                    param "location" "Optional[str]" (Some PNone);
                    param "limit" "int" (Some (PInt 5)) ];
     fn_body := fun arg => map_widget (arg "zip_code") (arg "location") (arg "limit") |}.

Definition coupons_fn : Function :=
  {| fn_name := "coupons";
     fn_doc := Some "Get current Huggies coupons and offers.";
     fn_params := [];
     fn_body := fun _ => coupons |}.

Definition suggest_names_fn : Function :=
  {| fn_name := "suggest_names";
     fn_doc := Some "Suggest unique baby names.";
     fn_params := [ param "prefix" "Optional[str]" (Some PNone);
                    param "count" "int" (Some (PInt 10)) ];
     fn_body := fun arg => suggest_names (arg "prefix") (arg "count") |}.

Definition predict_gender_fn : Function :=
  {| fn_name := "predict_gender";
     fn_doc := Some "Playful gender prediction (not medical).";
     fn_params := [ param "due_date" "Optional[str]" (Some PNone);
                    param "conception_date" "Optional[str]" (Some PNone) ];
     fn_body := fun arg => predict_gender (arg "due_date") (arg "conception_date") |}.

(** The registry: every name first mapped to [None], then updated with
    the functions once they are defined. *)
Definition _TOOL_FUNCTIONS : list (string * option Function) :=
  dict_update
    [ ("get_faq", None); ("list_faqs", None); ("get_item_by_id", None);
      ("diaper_size_calc", None); ("map_widget", None); ("coupons", None);
      ("suggest_names", None); ("predict_gender", None) ]
    [ ("get_faq", Some get_faq_fn);
      ("list_faqs", Some list_faqs_fn);
      ("get_item_by_id", Some get_item_by_id_fn);
      ("diaper_size_calc", Some diaper_size_calc_fn);
      ("map_widget", Some map_widget_fn);
      ("coupons", Some coupons_fn);
      ("suggest_names", Some suggest_names_fn);
      ("predict_gender", Some predict_gender_fn) ].

(** *** Listing *)

Definition _build_tool_schema (func : Function) : pyval :=
  let '(properties, required) :=
    fold_left
      (fun (acc : list (string * pyval) * list string) p =>
         let '(properties, required) := acc in
         let param_type := "string" in
         let param_type :=
           match param_annotation p with
           | Some ann_str =>
               if PyStr.is_in "int" ann_str || PyStr.is_in "float" ann_str then "number"
               else if PyStr.is_in "bool" ann_str then "boolean"
               else param_type
           | None => param_type
           end in
         let properties :=
           dict_set properties (param_name p)
             (PDict [ ("type", PStr param_type);
                      ("description", PStr (param_name p)) ]) in
         let required :=
           match param_default p with
           | None => (required ++ [param_name p])%list
           | Some _ => required
           end in
         (properties, required))
      (fn_params func) ([], []) in
  PDict [ ("type", PStr "object");
          ("properties", PDict properties);
          ("required", PList (map PStr required));
          ("additionalProperties", PBool false) ].

Definition newline : ascii := ascii_of_nat 10.

(** [_list_tools] and [_call_tool_request] read the global registry when
    they run; [registry] is its content at that time. *)
Definition _list_tools (registry : list (string * option Function))
  : outcome (list Tool) :=
  fold_left
    (fun (acc : outcome (list Tool)) entry =>
       tools ← acc;
       let '(tool_name, tool_func) := entry in
       match tool_func with
       | None => mret tools
       | Some tool_func =>
           widget ← bound_widget tool_name;
           let doc :=
             match fn_doc tool_func with
             | Some d => if PyStr.is_empty d then tool_name else d
             | None => tool_name
             end in
           let title :=
             if PyStr.is_empty doc then tool_name
             else PyStr.strip (hd "" (PyStr.split_on newline doc)) in
           meta ← on_widget _tool_meta "template_uri" widget;
           mret (tools ++ [ {| tool_name := tool_name;
                               tool_title := title;
                               tool_description := doc;
                               inputSchema := _build_tool_schema tool_func;
                               tool_meta := meta;
                               annotations := [ ("destructiveHint", false);
                                                ("openWorldHint", false);
                                                ("readOnlyHint", true) ] |} ])%list
       end)
    registry (mret []).

(** *** Reading a resource *)

Definition _handle_read_resource (req : ReadResourceRequest) : ServerResult :=
  let widget := WIDGETS_BY_URI !! req_uri req in
  match widget with
  | None =>
      ReadResourceResponse
        {| contents := [];
           rr_meta := Some [ ("error", PStr ("Unknown resource: " +:+ req_uri req)) ] |}
  | Some widget =>
      let contents :=
        [ {| trc_uri := template_uri widget;
             trc_mimeType := MIME_TYPE;
             trc_text := html widget;
             trc_meta := Some (_tool_meta widget) |} ] in
      ReadResourceResponse {| contents := contents; rr_meta := None |}
  end.

(** *** Calling a tool *)

(** None of the registered functions is a coroutine, so the call is the
    plain one. The [try] covers the call only: what the metadata lookup
    after it raises is not caught. A function hands back the object its
    constructor call made; the test and the assignment that follow name
    the attribute [_meta] of that object. *)
Definition _call_tool_request (registry : list (string * option Function))
    (req : CallToolRequest) : outcome ServerResult :=
  let tool_func := mjoin (dict_get registry (req_name req)) in
  match tool_func with
  | None =>
      Return (CallToolResponse
        {| content := [text_content ("Unknown tool: " +:+ req_name req)];
           structuredContent := None;
           isError := true;
           _meta := None |})
  | Some tool_func =>
      match call tool_func (default ∅ (req_arguments req)) with
      | Raise e =>
          Return (CallToolResponse
            {| content := [text_content ("Tool execution error: " +:+ str_of_exn rt e)];
               structuredContent := None;
               isError := true;
               _meta := None |})
      | Return (ResultEnvelope result) =>
          let result := construct result in
          absent ←
            (if negb (hasattr result "_meta") then Return true
             else v ← getattr result "_meta"; Return (is_None v));
          result ←
            (if absent : bool then
               widget ← bound_widget (req_name req);
               meta ← on_widget _tool_invocation_meta "invoking" widget;
               Return (setattr result "_meta" (PDict meta))
             else Return result);
          mret (CallToolResponse (serialized result))
      | Return (ResultOther result) =>
          match widgets with
          | [] => Raise IndexError
          | first :: _ =>
              let widget := default first (WIDGETS_BY_ID !! "huggies-cards") in
              let meta := _tool_invocation_meta widget in
              mret (CallToolResponse
                {| content := [text_content (py_str rt result)];
                   structuredContent := None;
                   isError := false;
                   _meta := Some meta |})
          end
      end
  end.

End Server.

(** ** Resource listings *)

Record Resource := {
  res_name : string;
  res_title : string;
  res_uri : string;
  res_description : string;
  res_mimeType : string;
  res_meta : meta_dict
}.

Record ResourceTemplate := {
  tpl_name : string;
  tpl_title : string;
  tpl_uriTemplate : string;
  tpl_description : string;
  tpl_mimeType : string;
  tpl_meta : meta_dict
}.

Definition _list_resources (_load_widget_html : string -> string) : list Resource :=
  map (fun widget =>
         {| res_name := title widget;
            res_title := title widget;
            res_uri := template_uri widget;
            res_description := _resource_description widget;
            res_mimeType := MIME_TYPE;
            res_meta := _tool_meta widget |})
      (widgets _load_widget_html).

Definition _list_resource_templates (_load_widget_html : string -> string)
  : list ResourceTemplate :=
  map (fun widget =>
         {| tpl_name := title widget;
            tpl_title := title widget;
            tpl_uriTemplate := template_uri widget;
            tpl_description := _resource_description widget;
            tpl_mimeType := MIME_TYPE;
            tpl_meta := _tool_meta widget |})
      (widgets _load_widget_html).

(** ** Loading the markup of a widget *)

Module Assets.

(** The assets directory as the loader sees it: the names of its files,
    each with its text. Names compare as on a POSIX file system, by code
    point. *)
Definition directory : Type := list (string * string).

(** [path.exists()] and [path.read_text()] in one: the text of the file of
    that name, if there is one. *)
Definition read_text (dir : directory) (name : string) : option string :=
  dict_get dir name.

Definition ends_with (s suffix : string) : bool :=
  String.prefix (String.rev suffix) (String.rev s).

(** Whether [ASSETS_DIR.glob(f"{component_name}-*.html")] yields the file:
    its name begins with the component name and a hyphen and ends with
    [.html], the two not overlapping. The component name is taken
    literally, as it is for names without pattern characters. *)
Definition globbed (component_name file : string) : bool :=
  String.prefix (component_name +:+ "-") file
  && ends_with file ".html"
  && (String.length component_name + 6 <=? String.length file)%nat.

(** [sorted(names)] *)
Fixpoint insert_sorted (x : string) (l : list string) : list string :=
  match l with
  | [] => [x]
  | y :: t => if String.leb x y then x :: y :: t else y :: insert_sorted x t
  end.

Definition sorted (l : list string) : list string := fold_right insert_sorted [] l.

(** The function is cached per component name; on a directory that does
    not change the cache is not observable. *)
Definition _load_widget_html (assets_dir : string) (dir : directory)
    (component_name : string) : outcome string :=
  match read_text dir (component_name +:+ ".html") with
  | Some text => Return text
  | None =>
      let fallback_candidates :=
        sorted (List.filter (globbed component_name) (map fst dir)) in
      match last fallback_candidates with
      | Some file =>
          match read_text dir file with
          | Some text => Return text
          | None => Raise (OtherException "FileNotFoundError" file)
          end
      | None =>
          Raise (OtherException "FileNotFoundError"
                   ("Widget HTML for " +:+ dquote +:+ component_name +:+ dquote
                      +:+ " not found in " +:+ assets_dir +:+ ". "
                      +:+ "Run `pnpm run build` to generate the assets before starting the server."))
      end
  end.

End Assets.

(** ** A runtime, a knowledge file and assets to run the server on *)

Module Sample.

Definition quoted (s : string) : string := "'" +:+ s +:+ "'".

(** The messages CPython 3.11 gives the exceptions above. *)
Definition message (e : exn) : string :=
  match e with
  | TypeError_unexpected_keyword f ks =>
      f +:+ "() got an unexpected keyword argument " +:+ quoted (hd "" ks)
  | TypeError_missing_argument f names =>
      f +:+ "() missing " +:+ PyStr.str_of_int (Z.of_nat (length names))
        +:+ " required positional argument"
        +:+ (match names with [_] => "" | _ => "s" end) +:+ ": "
        +:+ (match names with
             | [a] => quoted a
             | [a; b] => quoted a +:+ " and " +:+ quoted b
             | _ => String.concat ", " (map quoted names)
             end)
  | AttributeError t a =>
      quoted t +:+ " object has no attribute " +:+ quoted a
  | TypeError_float_argument t =>
      "float() argument must be a string or a real number, not " +:+ quoted t
  | ValueError_float s => "could not convert string to float: " +:+ quoted s
  | OverflowError_float => "int too large to convert to float"
  | TypeError_slice_index _ =>
      "slice indices must be integers or None or have an __index__ method"
  | ValueError_int s => "invalid literal for int() with base 10: " +:+ quoted s
  | KeyError k => quoted k
  | IndexError => "list index out of range"
  | OtherException _ msg => msg
  end.

Definition pow10 (k : nat) : float := float_of_Z (10 ^ Z.of_nat k).

(** The sign of a float and its magnitude times [10^k] rounded to the
    nearest integer, ties to even, both computed exactly; [None] for an
    infinity or a NaN. *)
Definition scaled (x : float) (k : nat) : option (bool * Z) :=
  match Prim2SF x with
  | S754_zero s => Some (s, 0)
  | S754_finite s m e =>
      let num := Z.pos m * 10 ^ Z.of_nat k * (if 0 <=? e then 2 ^ e else 1) in
      let den := if 0 <=? e then 1 else 2 ^ (- e) in
      let q := num / den in
      let r := num mod den in
      Some (s, if 2 * r <? den then q
               else if den <? 2 * r then q + 1
               else if Z.even q then q else q + 1)
  | _ => None
  end.

(** The float nearest to [d / 10^k], for [d < 2^53] and [k <= 22]. *)
Definition of_decimal (neg : bool) (d : Z) (k : nat) : float :=
  let x := PrimFloat.div (float_of_Z d) (pow10 k) in
  if neg then PrimFloat.opp x else x.

(** [round(x, ndigits)] as CPython computes it, for [0 <= ndigits <= 22]
    and a rounded magnitude below [2^53]; other arguments come back as
    they are. *)
Definition round_to (x : float) (ndigits : Z) : float :=
  if (0 <=? ndigits) && (ndigits <=? 22) then
    match scaled x (Z.to_nat ndigits) with
    | Some (neg, d) =>
        if d <? 2 ^ 53 then of_decimal neg d (Z.to_nat ndigits) else x
    | None => x
    end
  else x.

Fixpoint pad_left (n : nat) (s : string) : string :=
  if (n <=? String.length s)%nat then s
  else match n with
       | O => s
       | S n' => String "0" (pad_left n' s)
       end.

(** The exact value [m * 2^e] of a finite float. *)
Definition exact (x : float) : option (Z * Z) :=
  match Prim2SF x with
  | S754_zero _ => Some (0, 0)
  | S754_finite s m e => Some (if s then Z.neg m else Z.pos m, e)
  | _ => None
  end.

(** [d / 10^k] compared with the point half way between two floats. *)
Definition compare_mid (d : Z) (k : nat) (a b : Z * Z) : comparison :=
  let '(ma, ea) := a in
  let '(mb, eb) := b in
  let e := Z.min ea eb in
  let sum := ma * 2 ^ (ea - e) + mb * 2 ^ (eb - e) in
  if 0 <=? e then 2 * d ?= 10 ^ Z.of_nat k * sum * 2 ^ e
  else 2 * d * 2 ^ (- e) ?= 10 ^ Z.of_nat k * sum.

(** Whether [d / 10^k] is read as the non-negative finite float [x]:
    it lies between the half-way points to the neighbours of [x], a tie
    going to the even mantissa. *)
Definition reads_back (d : Z) (k : nat) (x : float) : bool :=
  match exact x with
  | Some (m, e) =>
      let above :=
        match exact (PrimFloat.next_down x) with
        | Some lo =>
            match compare_mid d k lo (m, e) with
            | Gt => true
            | Eq => Z.even m
            | Lt => false
            end
        | None => true
        end in
      let below :=
        match exact (PrimFloat.next_up x) with
        | Some hi =>
            match compare_mid d k (m, e) hi with
            | Lt => true
            | Eq => Z.even m
            | Gt => false
            end
        | None => true
        end in
      above && below
  | None => false
  end.

(** The shortest decimal, of [k] or more fractional digits, that reads
    back as [x]. *)
Fixpoint shortest (fuel k : nat) (x : float) : option (bool * Z * nat) :=
  match scaled x k with
  | Some (neg, d) =>
      if reads_back d k (PrimFloat.abs x) then Some (neg, d, k)
      else match fuel with
           | O => None
           | S fuel' => shortest fuel' (S k) x
           end
  | None => None
  end.

(** [str(x)] in positional notation, which is what CPython prints for a
    magnitude between [1e-4] and [1e16]. *)
Definition float_text (x : float) : string :=
  match shortest 24 0 x with
  | Some (neg, d, k) =>
      let whole := PyStr.str_of_int (d / 10 ^ Z.of_nat k) in
      let frac :=
        match k with
        | O => "0"
        | _ => pad_left k (PyStr.str_of_int (d mod 10 ^ Z.of_nat k))
        end in
      (if neg then "-" else "") +:+ whole +:+ "." +:+ frac
  | None =>
      if negb (PrimFloat.eqb x x) then "nan"
      else if PrimFloat.ltb x 0 then "-inf" else "inf"
  end.

(** Plain decimals [ddd] and [ddd.ddd] of at most 15 digits, signed or
    not; CPython reads more forms than these. *)
Definition parse_float (s : string) : option float :=
  let t := PyStr.strip s in
  let '(neg, body) :=
    match t with
    | String "-" r => (true, r)
    | String "+" r => (false, r)
    | _ => (false, t)
    end in
  match PyStr.split_on "." body with
  | [whole] =>
      if (String.length whole <=? 15)%nat && forallb (fun c => bool_decide (is_Some (PyStr.digit_of c))) (list_ascii_of_string whole)
      then (fun n => float_of_Z (if neg then - n else n)) <$> PyStr.digits_go 0 false whole
      else None
  | [whole; frac] =>
      if (String.length whole + String.length frac <=? 15)%nat
         && forallb (fun c => bool_decide (is_Some (PyStr.digit_of c)))
                    (list_ascii_of_string (whole +:+ frac))
      then (fun n => of_decimal neg n (String.length frac))
             <$> PyStr.digits_go 0 false (whole +:+ frac)
      else None
  | _ => None
  end.

Definition runtime : PyRuntime :=
  {| float_of_str := parse_float;
     float_of_big_int := fun _ => None;
     round_float := round_to;
     str_of_float := float_text;
     str_of_container := fun _ => "[...]";
     str_of_exn := message;
     random_random := fun _ => 0.5%float |}.

Definition knowledge : list KnowledgeRecord :=
  [ {| kr_id := Some "faq-001";
       kr_title := Some "How often should I change a diaper?";
       kr_question := Some "How many diaper changes per day does a newborn need?";
       kr_answer := Some "Newborns need a change every two to three hours.";
       kr_tags := Some ["diaper"; "newborn"];
       kr_source_url := Some "https://www.huggies.com/faq/changes";
       kr_type := Some "faq" |};
    {| kr_id := Some "faq-002";
       kr_title := Some "Preventing diaper rash";
       kr_question := Some "What can I do about diaper rash?";
       kr_answer := Some "Change wet diapers promptly and let the skin dry.";
       kr_tags := Some ["rash"; "skin"];
       kr_source_url := Some "https://www.huggies.com/faq/rash";
       kr_type := Some "faq" |};
    {| kr_id := Some "faq-003";
       kr_title := Some "Choosing a size";
       kr_question := Some "Which size fits my baby?";
       kr_answer := Some "Sizes follow the weight of the baby; size up on leaks.";
       kr_tags := Some ["size"; "fit"];
       kr_source_url := None;
       kr_type := Some "guide" |};
    {| kr_id := Some "faq-004";
       kr_title := Some "Overnight protection";
       kr_question := Some "Do I need a night diaper?";
       kr_answer := Some "A night diaper holds more and keeps the skin dry.";
       kr_tags := Some ["night"];
       kr_source_url := None;
       kr_type := Some "faq" |} ].

Definition load_html (component_name : string) : string :=
  "<!doctype html><div id=" +:+ quoted component_name +:+ "></div>".

(** The registry of the running server. *)
Definition registry : list (string * option Function) :=
  _TOOL_FUNCTIONS runtime knowledge load_html.

(** A handler that returns an envelope built without metadata; the
    module registers none like it. *)
Definition silent_fn : Function :=
  {| fn_name := "silent";
     fn_doc := None;
     fn_params := [];
     fn_body := fun _ =>
       Return (ResultEnvelope {| content := [text_content "done"];
                                 structuredContent := None;
                                 isError := false;
                                 _meta := None |}) |}.

Definition call_request (name : string) (kwargs : list (string * pyval)) : CallToolRequest :=
  {| req_name := name; req_arguments := Some (list_to_map kwargs) |}.

End Sample.

(** ** What the specification says, in its own words *)

Definition count_if {A : Type} (p : A -> bool) (l : list A) : Z :=
  Z.of_nat (length (List.filter p l)).

(** Section 4.2: the score of a record against the lowercased query. *)
Definition spec_score (q : string) (item : KnowledgeRecord) : Z :=
  (if PyStr.is_in q (PyStr.lower (get_or_empty (kr_title item))) then 5 else 0)
  + (if PyStr.is_in q (PyStr.lower (get_or_empty (kr_question item))) then 4 else 0)
  + 3 * count_if (fun tag => PyStr.is_in (PyStr.lower tag) q) (default [] (kr_tags item))
  + 1 * count_if (fun w => PyStr.is_in w (PyStr.lower (get_or_empty (kr_answer item))))
                 (PyStr.split q).

(** The records that score above zero, with their scores, in storage
    order. *)
Definition spec_hits (KNOWLEDGE : list KnowledgeRecord) (q : string)
  : list (Z * KnowledgeRecord) :=
  List.filter (fun h => 0 <? fst h) (map (fun item => (spec_score q item, item)) KNOWLEDGE).

Definition with_score {A : Type} (s : Z) (h : Z * A) : bool := fst h =? s.

(** Higher scores first. *)
Definition before {A : Type} (h1 h2 : Z * A) : Prop := fst h2 <= fst h1.

(** Section 3: a response carries invocation metadata. *)
Definition carries_metadata (response : outcome ServerResult) : Prop :=
  exists r meta, response = Return (CallToolResponse r) /\ _meta r = Some meta.

(** The error envelope of the dispatcher: one text, the error flag. *)
Definition error_envelope (text : string) : CallToolResult :=
  {| content := [text_content text];
     structuredContent := None;
     isError := true;
     _meta := None |}.

(** A value inside nested dictionaries, by the keys that lead to it. *)
Fixpoint field_at (path : list string) (v : pyval) : option pyval :=
  match path with
  | [] => Some v
  | key :: rest =>
      match v with
      | PDict d =>
          match dict_get d key with
          | Some w => field_at rest w
          | None => None
          end
      | _ => None
      end
  end.

(** A field of the structured content of an envelope. *)
Definition structured (path : list string) (r : CallToolResult) : option pyval :=
  match structuredContent r with
  | Some v => field_at path v
  | None => None
  end.

(** Section 4.6: the day component of a due date is what follows its last
    hyphen; the date is unparsable when that is not an integer literal. *)
Definition day_component (due_date : string) : option string :=
  last (PyStr.split_on "-" due_date).

Definition unparsable (due_date : string) : Prop :=
  match day_component due_date with
  | Some day => PyStr.int_of_str day = None
  | None => True
  end.

(** What a key of a record reads as: its string, [None] when the record
    has no such key. *)
Definition read_key (field : option string) : pyval :=
  match field with
  | Some s => PStr s
  | None => PNone
  end.

(** Section 4.6: a query is blank when it is empty or white space only. *)
Fixpoint blank (s : string) : bool :=
  match s with
  | EmptyString => true
  | String c t => PyStr.is_space c && blank t
  end.

(** Section 4.6: the weight bands in their priority order, each with its
    bounds in pounds, its size label and the description of its range.
    The label of the first band is left open. *)
Definition bands (newborn : string) : list (option float * float * string * string) :=
  [ (None, 10%float, newborn, "up to 10 lbs");
    (Some 8%float, 14%float, "1", "8–14 lbs");
    (Some 12%float, 18%float, "2", "12–18 lbs");
    (Some 16%float, 28%float, "3", "16–28 lbs");
    (Some 22%float, 37%float, "4", "22–37 lbs");
    (Some 27%float, 40%float, "5", "27+ lbs (varies by product)") ].

Definition in_band (w : float) (band : option float * float * string * string) : bool :=
  let '(lo, hi, _, _) := band in
  match lo with
  | Some l => PrimFloat.leb l w
  | None => true
  end && PrimFloat.leb w hi.

(** The first band that holds the weight wins; size 6 otherwise. *)
Definition first_band (newborn : string) (w : float) : string * string :=
  match List.find (in_band w) (bands newborn) with
  | Some (_, _, label, description) => (label, description)
  | None => ("6", "35+ lbs")
  end.

(** What a computation returned, if it did. *)
Definition returned {A : Type} (m : outcome A) : option A :=
  match m with
  | Return a => Some a
  | Raise _ => None
  end.

(** Section 4.6: the weight in pounds: the pounds when given, else the
    kilograms times the constant factor; undefined with neither. *)
Definition pounds (rt : PyRuntime) (weight_kg weight_lb : pyval) : option float :=
  if is_None weight_lb then
    if is_None weight_kg then None
    else (fun kg => PrimFloat.mul kg 2.2046226218) <$> returned (py_float rt weight_kg)
  else returned (py_float rt weight_lb).

(** Section 4.4: the schema type of a parameter from the text of its type
    hint, and the schema of a parameter list. *)
Definition spec_param_type (annotation : option string) : string :=
  match annotation with
  | Some hint =>
      if PyStr.is_in "int" hint || PyStr.is_in "float" hint then "number"
      else if PyStr.is_in "bool" hint then "boolean"
      else "string"
  | None => "string"
  end.

Definition has_no_default (p : SigParameter) : bool :=
  match param_default p with
  | None => true
  | Some _ => false
  end.

(** The property a parameter contributes to the schema. *)
Definition schema_property (p : SigParameter) : string * pyval :=
  (param_name p,
   PDict [ ("type", PStr (spec_param_type (param_annotation p)));
           ("description", PStr (param_name p)) ]).

Definition spec_schema (params : list SigParameter) : pyval :=
  PDict [ ("type", PStr "object");
          ("properties", PDict (map schema_property params));
          ("required", PList (map (fun p => PStr (param_name p))
                                  (List.filter has_no_default params)));
          ("additionalProperties", PBool false) ].

(** The tools of a registry: the names that map to a function. *)
Definition registered (registry : list (string * option Function))
  : list (string * Function) :=
  flat_map (fun entry => match snd entry with
                         | Some f => [(fst entry, f)]
                         | None => []
                         end) registry.

(** The size and range description by the upper bounds of the bands
    alone. *)
Definition by_upper_bound (w : float) : string * string :=
  if PrimFloat.leb w 10 then ("N (Newborn)", "up to 10 lbs")
  else if PrimFloat.leb w 14 then ("1", "8–14 lbs")
  else if PrimFloat.leb w 18 then ("2", "12–18 lbs")
  else if PrimFloat.leb w 28 then ("3", "16–28 lbs")
  else if PrimFloat.leb w 37 then ("4", "22–37 lbs")
  else if PrimFloat.leb w 40 then ("5", "27+ lbs (varies by product)")
  else ("6", "35+ lbs").

(** The weight the size calculator converts: the pounds when given, the
    kilograms otherwise. *)
Definition weight_used (weight_kg weight_lb : pyval) : pyval :=
  if is_None weight_lb then weight_kg else weight_lb.

(** A computation that, when it returns, returns an envelope with the
    invocation metadata of the widget. *)
Definition attaches (widget : HuggiesWidget) (m : outcome handler_result) : Prop :=
  forall hr,
    m = Return hr ->
    exists r, hr = ResultEnvelope r /\ _meta r = Some (_tool_invocation_meta widget).

(** [doc = tool_func.__doc__ or tool_name] *)
Definition doc_or_name (name : string) (f : Function) : string :=
  match fn_doc f with
  | Some d => if PyStr.is_empty d then name else d
  | None => name
  end.

(** ** Python strings, on examples *)

Example lower_ex : PyStr.lower "Diaper Rash?" = "diaper rash?".
Proof. reflexivity. Qed.
Example split_ex : PyStr.split "  how  to change " = ["how"; "to"; "change"].
Proof. reflexivity. Qed.
Example split_on_ex : PyStr.split_on "-" "2025-06-15" = ["2025"; "06"; "15"].
Proof. reflexivity. Qed.
Example strip_ex : PyStr.strip "  a b  " = "a b".
Proof. reflexivity. Qed.
Example int_ex : PyStr.int_of_str " 1_5 " = Some 15 /\ PyStr.int_of_str "1__5" = None
                 /\ PyStr.int_of_str "-07" = Some (-7) /\ PyStr.int_of_str "" = None
                 /\ PyStr.int_of_str "15th" = None.
Proof. repeat split; reflexivity. Qed.
Example int_limit_ex :
  PyStr.int_of_str (string_of_list_ascii (repeat "0"%char 4300)) = Some 0
  /\ PyStr.int_of_str (string_of_list_ascii (repeat "0"%char 4301)) = None
  /\ PyStr.int_of_str (string_of_list_ascii (repeat "1"%char 4301)) = None.
Proof. repeat split; vm_compute; reflexivity. Qed.
Example str_of_int_ex : PyStr.str_of_int 120 = "120" /\ PyStr.str_of_int 0 = "0"
                        /\ PyStr.str_of_int (-45) = "-45" /\ PyStr.str_of_int 1024 = "1024".
Proof. repeat split; reflexivity. Qed.

(** ** The search ranker *)

Section Ranker.

Context {A : Type}.
Implicit Types (h : Z * A) (l : list (Z * A)).

Lemma insert_desc_perm h l : Permutation (insert_desc h l) (h :: l).
Proof.
  induction l as [|x t IH]; simpl; [reflexivity|].
  destruct (fst x <=? fst h); [reflexivity|].
  rewrite IH. apply perm_swap.
Qed.

Lemma sort_desc_perm l : Permutation (sort_desc l) l.
Proof.
  induction l as [|h t IH]; simpl; [constructor|].
  rewrite insert_desc_perm. now constructor.
Qed.

Lemma insert_desc_sorted h l :
  StronglySorted before l -> StronglySorted before (insert_desc h l).
Proof.
  induction 1 as [|x t Hs IH Hx]; simpl.
  - repeat constructor.
  - destruct (Z.leb_spec (fst x) (fst h)) as [Hle|Hlt].
    + constructor; [now constructor|].
      constructor; [exact Hle|].
      eapply List.Forall_impl; [|exact Hx].
      unfold before. intros y Hy. lia.
    + constructor; [exact IH|].
      rewrite insert_desc_perm. constructor; [|exact Hx].
      unfold before. lia.
Qed.

Lemma sort_desc_sorted l : StronglySorted before (sort_desc l).
Proof.
  induction l as [|h t IH]; simpl; [constructor|].
  now apply insert_desc_sorted.
Qed.

(** Among equal scores an inserted element stays in front. *)
Lemma insert_desc_stable s h l :
  List.filter (with_score s) (insert_desc h l) = List.filter (with_score s) (h :: l).
Proof.
  induction l as [|x t IH]; [reflexivity|].
  cbn [insert_desc].
  destruct (Z.leb_spec (fst x) (fst h)) as [Hle|Hlt]; [reflexivity|].
  cbn [List.filter] in *. rewrite IH. unfold with_score.
  destruct (Z.eqb_spec (fst x) s), (Z.eqb_spec (fst h) s); try reflexivity; lia.
Qed.

Lemma sort_desc_stable s l :
  List.filter (with_score s) (sort_desc l) = List.filter (with_score s) l.
Proof.
  induction l as [|h t IH]; [reflexivity|].
  cbn [sort_desc fold_right]. rewrite insert_desc_stable.
  cbn [List.filter]. fold (sort_desc t). now rewrite IH.
Qed.

End Ranker.

Lemma fold_add_if {A : Type} (p : A -> bool) (c : Z) (l : list A) (s : Z) :
  fold_left (fun score x => if p x then score + c else score) l s
  = s + c * count_if p l.
Proof.
  unfold count_if. revert s.
  induction l as [|x t IH]; intros s; cbn [fold_left List.filter].
  - cbn. lia.
  - rewrite IH. destruct (p x); cbn [length]; lia.
Qed.

Lemma split_go_nonempty s : forall cur,
  Forall (fun w => PyStr.is_empty w = false) (PyStr.split_go cur s).
Proof.
  induction s as [|c t IH]; intros cur; cbn [PyStr.split_go].
  - destruct (PyStr.is_empty cur) eqn:E; repeat constructor; exact E.
  - destruct (PyStr.is_space c); [|apply IH].
    destruct (PyStr.is_empty cur) eqn:E; [apply IH|].
    constructor; [exact E|apply IH].
Qed.

Lemma filter_ext_Forall {A : Type} (p q : A -> bool) (l : list A) :
  Forall (fun x => p x = q x) l -> List.filter p l = List.filter q l.
Proof.
  induction 1 as [|x t Hx _ IH]; cbn [List.filter]; [reflexivity|].
  now rewrite Hx, IH.
Qed.

Lemma score_of_spec q item : score_of q item = spec_score q item.
Proof.
  unfold score_of, spec_score.
  rewrite (fold_add_if (fun w => negb (PyStr.is_empty w) && PyStr.is_in w _)).
  rewrite (fold_add_if (fun tag => PyStr.is_in (PyStr.lower tag) q)).
  assert (Htok : count_if (fun w => negb (PyStr.is_empty w)
                                    && PyStr.is_in w (PyStr.lower (get_or_empty (kr_answer item))))
                          (PyStr.split q)
                 = count_if (fun w => PyStr.is_in w (PyStr.lower (get_or_empty (kr_answer item))))
                            (PyStr.split q)).
  { unfold count_if. f_equal. f_equal. apply filter_ext_Forall.
    eapply List.Forall_impl; [|apply split_go_nonempty].
    intros w Hw. cbn beta in *. now rewrite Hw. }
  rewrite Htok.
  destruct (PyStr.is_in q (PyStr.lower (get_or_empty (kr_title item))));
    destruct (PyStr.is_in q (PyStr.lower (get_or_empty (kr_question item)))); lia.
Qed.

Lemma hits_loop KNOWLEDGE q : forall acc,
  fold_left (fun hits item =>
               let score := score_of q item in
               if 0 <? score then (hits ++ [(score, item)])%list else hits)
            KNOWLEDGE acc
  = (acc ++ spec_hits KNOWLEDGE q)%list.
Proof.
  unfold spec_hits.
  induction KNOWLEDGE as [|item t IH]; intros acc; cbn [fold_left map List.filter].
  - now rewrite app_nil_r.
  - cbv zeta. rewrite IH, score_of_spec. cbn [fst].
    destruct (0 <? spec_score q item); [|reflexivity].
    now rewrite <- app_assoc.
Qed.

Lemma slice_to_nat {A : Type} (n : nat) (l : list A) :
  slice_to (Z.of_nat n) l = firstn n l.
Proof.
  unfold slice_to. destruct (Z.leb_spec 0 (Z.of_nat n)); [|lia].
  now rewrite Nat2Z.id.
Qed.

(** C4. [keyword_search] lowercases the query; a record scores 5 for the
    query inside its lowercased title, 4 for the query inside its
    lowercased question, 3 for every tag whose lowercased form is inside
    the query and 1 for every white-space token of the query (repeated
    tokens counted each time) inside its lowercased answer; the records
    that score above zero are returned, higher scores first, equal scores
    in storage order, cut to the first [top_n]. *)
Theorem keyword_search_ranks (KNOWLEDGE : list KnowledgeRecord) (query : string)
    (top_n : nat) :
  let hits := spec_hits KNOWLEDGE (PyStr.lower query) in
  exists ranked : list (Z * KnowledgeRecord),
    keyword_search KNOWLEDGE query (Z.of_nat top_n) = firstn top_n (map snd ranked)
    /\ Permutation ranked hits
    /\ StronglySorted before ranked
    /\ forall s : Z,
         List.filter (with_score s) ranked = List.filter (with_score s) hits.
Proof.
  intros hits. exists (sort_desc hits). repeat split.
  - unfold keyword_search. rewrite hits_loop, slice_to_nat. reflexivity.
  - apply sort_desc_perm.
  - apply (sort_desc_sorted hits).
  - intros s. apply sort_desc_stable.
Qed.

(** ** The widget catalog and its indices *)

Lemma index_by_lookup (key : HuggiesWidget -> string) (ws : list HuggiesWidget)
    (k : string) :
  index_by key ws !! k = List.find (fun w => String.eqb (key w) k) (rev ws).
Proof.
  unfold index_by. rewrite <- fold_left_rev_right.
  induction (rev ws) as [|w t IH]; cbn [fold_right List.find].
  - apply lookup_empty.
  - destruct (String.eqb_spec (key w) k) as [->|Hne].
    + apply lookup_insert_eq.
    + rewrite lookup_insert_ne by exact Hne. exact IH.
Qed.

Lemma find_absent {A : Type} (p : A -> bool) (l : list A) :
  (forall x, In x l -> p x = false) -> List.find p l = None.
Proof.
  induction l as [|x t IH]; intros H; cbn [List.find]; [reflexivity|].
  rewrite (H x) by now left.
  apply IH. intros y Hy. apply H. now right.
Qed.

Lemma by_uri_miss (load : string -> string) (uri : string) :
  (forall widget, In widget (widgets load) -> template_uri widget <> uri) ->
  WIDGETS_BY_URI load !! uri = None.
Proof.
  intros H. unfold WIDGETS_BY_URI. rewrite index_by_lookup.
  apply find_absent. intros w Hw.
  apply String.eqb_neq, H. now apply in_rev.
Qed.

Lemma by_uri_hit (load : string -> string) (widget : HuggiesWidget) :
  In widget (widgets load) -> WIDGETS_BY_URI load !! template_uri widget = Some widget.
Proof.
  intros H. cbn in H.
  repeat (destruct H as [<-|H]; [vm_compute; reflexivity|]).
  destruct H.
Qed.

Lemma by_id_hit (load : string -> string) (widget : HuggiesWidget) :
  In widget (widgets load) -> WIDGETS_BY_ID load !! identifier widget = Some widget.
Proof.
  intros H. cbn in H.
  repeat (destruct H as [<-|H]; [vm_compute; reflexivity|]).
  destruct H.
Qed.

(** Every name has a widget: the one of its binding, or the first one. *)
Lemma bound_widget_found (load : string -> string) (name : string) :
  exists widget,
    bound_widget load name = Return (Some widget)
    /\ In widget (widgets load)
    /\ forall widget_id, tool_to_widget !! name = Some widget_id ->
                         identifier widget = widget_id.
Proof.
  unfold bound_widget. destruct (tool_to_widget !! name) as [id|] eqn:E.
  - apply elem_of_list_to_map_2, list_elem_of_In in E. cbn in E.
    repeat (destruct E as [E|E];
            [ inversion E; subst; eexists; split; [vm_compute; reflexivity|];
              split; [cbn; tauto | intros ? [= <-]; reflexivity ] | ]).
    destruct E.
  - eexists. split; [reflexivity|]. split; [now left|]. intros ? [=].
Qed.

(** C6. Reading the URI of a widget of the catalog gives one content
    entry with that URI, the fixed MIME type, the widget's preloaded markup
    and the widget metadata: the URI as output template, the invoking and
    invoked labels of the widget and the two widget flags. Reading a URI
    of no widget gives no contents and an error entry in the metadata.
    Both are results, not failures. *)
Theorem read_resource_resolves (load : string -> string) (uri : string) :
  (forall widget,
      In widget (widgets load) -> template_uri widget = uri ->
      _handle_read_resource load {| req_uri := uri |}
      = ReadResourceResponse
          {| contents :=
               [ {| trc_uri := uri;
                    trc_mimeType := "text/html+skybridge";
                    trc_text := html widget;
                    trc_meta :=
                      Some [ ("openai/outputTemplate", PStr uri);
                             ("openai/toolInvocation/invoking", PStr (invoking widget));
                             ("openai/toolInvocation/invoked", PStr (invoked widget));
                             ("openai/widgetAccessible", PBool true);
                             ("openai/resultCanProduceWidget", PBool true) ] |} ];
             rr_meta := None |})
  /\ ((forall widget, In widget (widgets load) -> template_uri widget <> uri) ->
      _handle_read_resource load {| req_uri := uri |}
      = ReadResourceResponse
          {| contents := [];
             rr_meta := Some [ ("error", PStr ("Unknown resource: " +:+ uri)) ] |}).
Proof.
  split.
  - intros widget Hin <-. unfold _handle_read_resource. cbn [req_uri].
    now rewrite by_uri_hit.
  - intros Hmiss. unfold _handle_read_resource. cbn [req_uri].
    now rewrite by_uri_miss.
Qed.

Lemma read_resource_resolves_witness :
  _handle_read_resource Sample.load_html {| req_uri := "ui://widget/huggies-cards.html" |}
  = ReadResourceResponse
      {| contents :=
           [ {| trc_uri := "ui://widget/huggies-cards.html";
                trc_mimeType := "text/html+skybridge";
                trc_text := "<!doctype html><div id='huggies-cards'></div>";
                trc_meta :=
                  Some [ ("openai/outputTemplate", PStr "ui://widget/huggies-cards.html");
                         ("openai/toolInvocation/invoking", PStr "Searching FAQs");
                         ("openai/toolInvocation/invoked", PStr "Found FAQ results");
                         ("openai/widgetAccessible", PBool true);
                         ("openai/resultCanProduceWidget", PBool true) ] |} ];
         rr_meta := None |}
  /\ _handle_read_resource Sample.load_html {| req_uri := "ui://unknown" |}
     = ReadResourceResponse
         {| contents := [];
            rr_meta := Some [ ("error", PStr "Unknown resource: ui://unknown") ] |}.
Proof.
  split.
  - apply (proj1 (read_resource_resolves Sample.load_html "ui://widget/huggies-cards.html")
             {| identifier := "huggies-cards";
                title := "Show FAQ Cards";
                template_uri := "ui://widget/huggies-cards.html";
                invoking := "Searching FAQs";
                invoked := "Found FAQ results";
                html := Sample.load_html "huggies-cards";
                response_text := "Displayed FAQ cards!" |});
      [now left | reflexivity].
  - apply (proj2 (read_resource_resolves Sample.load_html "ui://unknown")).
    intros widget Hin. cbn in Hin.
    repeat (destruct Hin as [<-|Hin]; [discriminate|]). destruct Hin.
Defined.

(** ** The dispatcher *)

(** C2. A call whose name the registry does not map to a function is
    answered, not raised: the dispatcher returns one envelope with the
    error flag set and the text that names the unknown tool. *)
Theorem unknown_tool_is_error (rt : PyRuntime) (load : string -> string)
    (registry : list (string * option Function)) (req : CallToolRequest) :
  mjoin (dict_get registry (req_name req)) = None ->
  _call_tool_request rt load registry req
  = Return (CallToolResponse (error_envelope ("Unknown tool: " +:+ req_name req))).
Proof.
  intros Hmiss. unfold _call_tool_request. now rewrite Hmiss.
Qed.

Lemma unknown_tool_is_error_witness :
  _call_tool_request Sample.runtime Sample.load_html Sample.registry
    (Sample.call_request "nonexistent-tool" [])
  = Return (CallToolResponse (error_envelope "Unknown tool: nonexistent-tool")).
Proof.
  apply (unknown_tool_is_error Sample.runtime Sample.load_html Sample.registry
           (Sample.call_request "nonexistent-tool" [])).
  reflexivity.
Defined.

(** C3. When the function of a registered tool raises, the dispatcher
    catches what was raised and returns one envelope with the error flag
    set and a text that carries the description of the exception; nothing
    is raised to the transport. *)
Theorem handler_exception_is_caught (rt : PyRuntime) (load : string -> string)
    (registry : list (string * option Function)) (req : CallToolRequest)
    (tool_func : Function) (e : exn) :
  mjoin (dict_get registry (req_name req)) = Some tool_func ->
  call tool_func (default ∅ (req_arguments req)) = Raise e ->
  _call_tool_request rt load registry req
  = Return (CallToolResponse
              (error_envelope ("Tool execution error: " +:+ str_of_exn rt e))).
Proof.
  intros Hfound Hraise. unfold _call_tool_request. now rewrite Hfound, Hraise.
Qed.

Lemma handler_exception_is_caught_witness :
  _call_tool_request Sample.runtime Sample.load_html Sample.registry
    (Sample.call_request "get_faq" [])
  = Return (CallToolResponse
              (error_envelope
                 "Tool execution error: get_faq() missing 1 required positional argument: 'query'")).
Proof.
  apply (handler_exception_is_caught Sample.runtime Sample.load_html Sample.registry
           (Sample.call_request "get_faq" [])
           (get_faq_fn Sample.runtime Sample.knowledge Sample.load_html)
           (TypeError_missing_argument "get_faq" ["query"]));
    reflexivity.
Defined.

(** The envelope a function returns goes out as the function built it:
    the dispatcher computes the metadata of the bound widget and stores it
    under the attribute [_meta] of the object, which is no field. *)
Lemma envelope_is_passed_on (rt : PyRuntime) (load : string -> string)
    (registry : list (string * option Function)) (req : CallToolRequest)
    (tool_func : Function) (result : CallToolResult) :
  mjoin (dict_get registry (req_name req)) = Some tool_func ->
  call tool_func (default ∅ (req_arguments req)) = Return (ResultEnvelope result) ->
  _call_tool_request rt load registry req = Return (CallToolResponse result).
Proof.
  intros Hfound Hcall. unfold _call_tool_request. rewrite Hfound, Hcall.
  cbn [construct hasattr own_attributes dict_get negb mbind outcome_bind].
  destruct (bound_widget_found load (req_name req)) as (widget & -> & _).
  reflexivity.
Qed.

(** C1. The claim fails on the code. On the server's own registry the
    call of a tool that does not exist and a call whose function raises
    are both answered with an envelope without metadata. And the fill-in
    does not reach the field: a function bound to the offers widget that
    returns an envelope built without metadata is answered with that very
    envelope, without metadata. *)
Theorem dispatcher_responses_without_metadata :
  ~ carries_metadata
      (_call_tool_request Sample.runtime Sample.load_html Sample.registry
         (Sample.call_request "nonexistent-tool" []))
  /\ ~ carries_metadata
         (_call_tool_request Sample.runtime Sample.load_html Sample.registry
            (Sample.call_request "get_faq" []))
  /\ tool_to_widget !! "coupons" = Some "huggies-offers"
  /\ _call_tool_request Sample.runtime Sample.load_html
       [ ("coupons", Some Sample.silent_fn) ] (Sample.call_request "coupons" [])
     = Return (CallToolResponse
                 {| content := [text_content "done"];
                    structuredContent := None;
                    isError := false;
                    _meta := None |}).
Proof.
  split; [|split; [|split]].
  - intros (r & meta & Hresp & Hmeta).
    vm_compute in Hresp. injection Hresp as <-.
    discriminate Hmeta.
  - intros (r & meta & Hresp & Hmeta).
    vm_compute in Hresp. injection Hresp as <-.
    discriminate Hmeta.
  - reflexivity.
  - vm_compute. reflexivity.
Qed.

(** ** Calls with keyword arguments *)

Lemma filter_none {A : Type} (p : A -> bool) (l : list A) :
  (forall x, In x l -> p x = false) -> List.filter p l = [].
Proof.
  induction l as [|x t IH]; intros H; cbn [List.filter]; [reflexivity|].
  rewrite (H x) by now left.
  apply IH. intros y Hy. apply H. now right.
Qed.

(** Keywords that all name parameters, and parameters that all have
    defaults: the body runs on the keywords and the defaults. *)
Lemma call_binds (f : Function) (kwargs : gmap string pyval) :
  (forall k, k ∈ dom kwargs -> In k (map param_name (fn_params f))) ->
  (forall p, In p (fn_params f) -> is_Some (param_default p)) ->
  call f kwargs
  = fn_body f (fun name =>
      match kwargs !! name with
      | Some v => v
      | None =>
          match List.find (fun p => String.eqb (param_name p) name) (fn_params f) with
          | Some p => default PNone (param_default p)
          | None => PNone
          end
      end).
Proof.
  intros Hkeys Hdefaults. unfold call.
  rewrite (filter_none _ (map fst (map_to_list kwargs))).
  2: { intros k Hk. apply in_map_iff in Hk as ((k' & v) & <- & Hkv).
       apply list_elem_of_In, elem_of_map_to_list in Hkv. cbn [fst].
       apply negb_false_iff. unfold has_name. apply existsb_exists.
       exists k'. split; [|apply String.eqb_refl].
       apply Hkeys, elem_of_dom. now exists v. }
  rewrite (filter_none _ (fn_params f)); [reflexivity|].
  intros p Hp. destruct (Hdefaults p Hp) as (d & ->). reflexivity.
Qed.

(** ** Gender prediction *)

Lemma gender_widget_found (load : string -> string) :
  exists widget,
    In widget (widgets load)
    /\ dict_getitem (WIDGETS_BY_ID load) "huggies-gender" = Return widget.
Proof.
  eexists. split; [|vm_compute; reflexivity]. cbn. tauto.
Qed.

Lemma unparsable_prediction (due_date : string) :
  unparsable due_date ->
  try_or (parts ← meth_split (PStr due_date) "-";
          piece ← getitem_last parts;
          day ← py_int_of_str piece;
          mret (if day mod 2 =? 1 then "boy" else "girl"))
         "unknown"
  = "unknown".
Proof.
  unfold unparsable, day_component. cbn [meth_split].
  unfold getitem_last, py_int_of_str.
  cbn [mbind outcome_bind].
  destruct (last (PyStr.split_on "-" due_date)) as [piece|]; [|reflexivity].
  intros Hbad. cbn. rewrite Hbad. reflexivity.
Qed.

(** The claim C9 as stated fails: a due date that cannot be parsed is
    answered with an envelope whose error flag is not set. *)
Lemma unparsable_due_date_is_not_flagged :
  exists r,
    _call_tool_request Sample.runtime Sample.load_html Sample.registry
      (Sample.call_request "predict_gender" [ ("due_date", PStr "not-a-date") ])
    = Return (CallToolResponse r)
    /\ isError r = false.
Proof.
  eexists. split; [vm_compute; reflexivity|reflexivity].
Qed.

(** C9, amended. A call of the gender-prediction tool with a due-date
    string that cannot be parsed is answered with an ordinary envelope:
    the error flag is not set, the prediction is ["unknown"] and the text
    says so; the dispatcher returns and raises nothing. *)
Theorem unparsable_due_date_is_unknown (rt : PyRuntime)
    (KNOWLEDGE : list KnowledgeRecord) (load : string -> string)
    (due_date : string) (kwargs : gmap string pyval) :
  unparsable due_date ->
  kwargs !! "due_date" = Some (PStr due_date) ->
  (forall k, k ∈ dom kwargs -> k = "due_date" \/ k = "conception_date") ->
  exists r,
    _call_tool_request rt load (_TOOL_FUNCTIONS rt KNOWLEDGE load)
      {| req_name := "predict_gender"; req_arguments := Some kwargs |}
    = Return (CallToolResponse r)
    /\ isError r = false
    /\ content r = [text_content "Playful prediction: unknown (not medical)."]
    /\ structured ["backend"; "prediction"] r = Some (PStr "unknown")
    /\ structured ["widget"; "prediction"] r = Some (PStr "unknown").
Proof.
  intros Hbad Hdate Hkeys.
  unfold _call_tool_request.
  change (mjoin (dict_get (_TOOL_FUNCTIONS rt KNOWLEDGE load)
                   (req_name {| req_name := "predict_gender";
                                req_arguments := Some kwargs |})))
    with (Some (predict_gender_fn load)).
  cbn [req_arguments default].
  rewrite call_binds.
  2: { intros k Hk. destruct (Hkeys k Hk) as [-> | ->]; cbn; tauto. }
  2: { intros p Hp. cbn in Hp. destruct Hp as [<-|[<-|[]]]; cbn; eauto. }
  unfold predict_gender_fn. cbn [fn_body]. cbv beta. unfold id. rewrite Hdate.
  unfold predict_gender.
  destruct (gender_widget_found load) as (widget & _ & ->).
  cbn [mbind outcome_bind]. cbv zeta.
  rewrite (unparsable_prediction due_date Hbad).
  destruct (truthy (PStr due_date));
    cbn [mret outcome_ret _meta]; eexists; (split; [reflexivity|]);
    repeat split; reflexivity.
Qed.

Lemma unparsable_due_date_is_unknown_witness :
  exists r,
    _call_tool_request Sample.runtime Sample.load_html Sample.registry
      (Sample.call_request "predict_gender"
         [ ("due_date", PStr "2025-06-1st"); ("conception_date", PStr "2024-09-08") ])
    = Return (CallToolResponse r)
    /\ isError r = false
    /\ content r = [text_content "Playful prediction: unknown (not medical)."]
    /\ structured ["backend"; "prediction"] r = Some (PStr "unknown")
    /\ structured ["widget"; "prediction"] r = Some (PStr "unknown").
Proof.
  apply (unparsable_due_date_is_unknown Sample.runtime Sample.knowledge Sample.load_html
           "2025-06-1st").
  - reflexivity.
  - reflexivity.
  - intros k Hk. apply elem_of_dom in Hk.
    destruct (String.eqb_spec k "due_date") as [->|H1]; [now left|].
    destruct (String.eqb_spec k "conception_date") as [->|H2]; [now right|].
    exfalso. destruct Hk as (v & Hv).
    cbn in Hv.
    rewrite lookup_insert_ne in Hv by congruence.
    rewrite lookup_insert_ne in Hv by congruence.
    rewrite lookup_empty in Hv. discriminate Hv.
Defined.

(** C10. For a fixed due date, two calls of [predict_gender] that differ
    in the conception date alone give the same prediction and the same
    text; the conception date only comes back in the structured content. *)
Theorem conception_date_is_only_echoed (load : string -> string)
    (due_date conception_date1 conception_date2 : pyval) :
  exists r1 r2,
    predict_gender load due_date conception_date1 = Return (ResultEnvelope r1)
    /\ predict_gender load due_date conception_date2 = Return (ResultEnvelope r2)
    /\ content r1 = content r2
    /\ structured ["text"] r1 = structured ["text"] r2
    /\ structured ["backend"; "prediction"] r1 = structured ["backend"; "prediction"] r2
    /\ structured ["widget"; "prediction"] r1 = structured ["widget"; "prediction"] r2
    /\ (exists prediction, structured ["backend"; "prediction"] r1 = Some (PStr prediction))
    /\ structured ["backend"; "conception_date"] r1 = Some conception_date1
    /\ structured ["backend"; "conception_date"] r2 = Some conception_date2.
Proof.
  unfold predict_gender.
  destruct (gender_widget_found load) as (widget & _ & ->).
  cbn [mbind outcome_bind mret outcome_ret]. cbv zeta.
  eexists. eexists.
  split; [reflexivity|]. split; [reflexivity|].
  repeat split; try reflexivity.
  eexists. reflexivity.
Qed.

(** ** The size calculator *)

Lemma size_band_first_match (w : float) : size_band w = first_band "N (Newborn)" w.
Proof.
  unfold size_band, first_band, bands. cbn [List.find in_band].
  repeat match goal with
         | |- context [PrimFloat.leb ?a ?b] => destruct (PrimFloat.leb a b)
         end; reflexivity.
Qed.

Lemma size_widget_found (load : string -> string) :
  exists widget,
    In widget (widgets load)
    /\ dict_getitem (WIDGETS_BY_ID load) "huggies-size-calc" = Return widget.
Proof.
  eexists. split; [|vm_compute; reflexivity]. cbn. tauto.
Qed.

(** The claim C5 as stated fails on the label of the first band: nine
    pounds are answered with ["N (Newborn)"], not with ["N"]. *)
Lemma nine_pounds_is_labelled_newborn :
  exists r,
    diaper_size_calc Sample.runtime Sample.load_html PNone (PInt 9)
    = Return (ResultEnvelope r)
    /\ structured ["backend"; "recommended_size"] r = Some (PStr "N (Newborn)")
    /\ structured ["backend"; "recommended_size"] r
       <> Some (PStr (fst (first_band "N" 9%float))).
Proof.
  eexists. split; [vm_compute; reflexivity|].
  split; [reflexivity|]. vm_compute. discriminate.
Qed.

(** C5, amended. With neither weight the calculator returns an envelope
    with the error flag set. Otherwise the weight in pounds is the given
    pounds, or with kilograms only the kilograms times 2.2046226218; it is
    matched against the six overlapping bands in their fixed order, the
    first band that holds it winning and size 6 remaining, where the label
    of the first band is ["N (Newborn)"]; the output carries the size
    label, the description of the matched range, the fixed advice and the
    weight rounded to two decimal places. *)
Theorem size_calculator_contract (rt : PyRuntime) (load : string -> string)
    (weight_kg weight_lb : pyval) :
  (weight_kg = PNone -> weight_lb = PNone ->
   exists r,
     diaper_size_calc rt load weight_kg weight_lb = Return (ResultEnvelope r)
     /\ isError r = true)
  /\ (forall kg : float,
        weight_kg = PFloat kg -> weight_lb = PNone ->
        pounds rt weight_kg weight_lb = Some (PrimFloat.mul kg 2.2046226218))
  /\ (forall w : float,
        pounds rt weight_kg weight_lb = Some w ->
        exists r,
          diaper_size_calc rt load weight_kg weight_lb = Return (ResultEnvelope r)
          /\ isError r = false
          /\ structured ["backend"; "recommended_size"] r
             = Some (PStr (fst (first_band "N (Newborn)" w)))
          /\ structured ["backend"; "weight_range_description"] r
             = Some (PStr (snd (first_band "N (Newborn)" w)))
          /\ structured ["backend"; "advice"] r = Some (PStr advice)
          /\ structured ["backend"; "weight_lb"] r = Some (PFloat (round_float rt w 2))).
Proof.
  split; [|split].
  - intros -> ->. unfold diaper_size_calc.
    destruct (size_widget_found load) as (widget & _ & ->).
    cbn. eexists. split; reflexivity.
  - intros kg -> ->. reflexivity.
  - intros w Hw. unfold diaper_size_calc.
    destruct (size_widget_found load) as (widget & _ & ->).
    cbn [mbind outcome_bind]. unfold pounds in Hw.
    destruct (is_None weight_lb) eqn:Hlb.
    + destruct (is_None weight_kg) eqn:Hkg; [discriminate Hw|].
      cbn [andb negb].
      destruct (py_float rt weight_kg) as [kg|e]; [|discriminate Hw].
      cbn in Hw. injection Hw as <-.
      cbn [mbind outcome_bind mret outcome_ret py_float].
      rewrite size_band_first_match.
      destruct (first_band "N (Newborn)" (PrimFloat.mul kg 2.2046226218)) as [size range_desc].
      eexists. split; [reflexivity|]. repeat split; reflexivity.
    + rewrite andb_false_r. cbn [andb].
      cbn [mbind outcome_bind mret outcome_ret].
      destruct (py_float rt weight_lb) as [x|e]; [|discriminate Hw].
      cbn in Hw. injection Hw as <-.
      cbn [mbind outcome_bind mret outcome_ret].
      rewrite size_band_first_match.
      destruct (first_band "N (Newborn)" x) as [size range_desc].
      eexists. split; [reflexivity|]. repeat split; reflexivity.
Qed.

Lemma size_calculator_contract_witness :
  (exists r,
     diaper_size_calc Sample.runtime Sample.load_html PNone PNone
     = Return (ResultEnvelope r)
     /\ isError r = true)
  /\ pounds Sample.runtime (PFloat 9) PNone = Some 19.8416035962%float
  /\ (exists r,
        diaper_size_calc Sample.runtime Sample.load_html PNone (PInt 13)
        = Return (ResultEnvelope r)
        /\ isError r = false
        /\ structured ["backend"; "recommended_size"] r = Some (PStr "1")
        /\ structured ["backend"; "weight_range_description"] r = Some (PStr "8–14 lbs")
        /\ structured ["backend"; "advice"] r = Some (PStr advice)
        /\ structured ["backend"; "weight_lb"] r = Some (PFloat 13)).
Proof.
  split; [|split].
  - apply (proj1 (size_calculator_contract Sample.runtime Sample.load_html PNone PNone));
      reflexivity.
  - rewrite (proj1 (proj2 (size_calculator_contract Sample.runtime Sample.load_html
                             (PFloat 9) PNone)) 9%float eq_refl eq_refl).
    vm_compute. reflexivity.
  - apply (proj2 (proj2 (size_calculator_contract Sample.runtime Sample.load_html
                           PNone (PInt 13))) 13%float).
    reflexivity.
Defined.

(** ** FAQ lookup *)

Lemma lstrip_empty_iff_blank (s : string) : PyStr.is_empty (PyStr.lstrip s) = blank s.
Proof.
  induction s as [|c t IH]; cbn [PyStr.lstrip blank]; [reflexivity|].
  destruct (PyStr.is_space c); [exact IH|reflexivity].
Qed.

Lemma blank_lstrip (s : string) : blank (PyStr.lstrip s) = blank s.
Proof.
  induction s as [|c t IH]; cbn [PyStr.lstrip blank]; [reflexivity|].
  destruct (PyStr.is_space c) eqn:E; [exact IH|].
  cbn [blank]. now rewrite E.
Qed.

Lemma blank_rev_app (s1 s2 : string) :
  blank (String.rev_app s1 s2) = blank s1 && blank s2.
Proof.
  revert s2. induction s1 as [|c t IH]; intros s2; cbn [String.rev_app blank];
    [reflexivity|].
  rewrite IH. cbn [blank]. destruct (PyStr.is_space c), (blank t); reflexivity.
Qed.

Lemma is_empty_rev_app (s1 s2 : string) :
  PyStr.is_empty (String.rev_app s1 s2) = PyStr.is_empty s1 && PyStr.is_empty s2.
Proof.
  revert s2. induction s1 as [|c t IH]; intros s2; cbn [String.rev_app];
    [reflexivity|].
  rewrite IH. cbn [PyStr.is_empty]. apply andb_false_r.
Qed.

(** Stripping leaves nothing exactly of the blank strings. *)
Lemma strip_empty_iff_blank (s : string) : PyStr.is_empty (PyStr.strip s) = blank s.
Proof.
  unfold PyStr.strip, PyStr.rstrip, String.rev.
  rewrite is_empty_rev_app, andb_true_r, lstrip_empty_iff_blank.
  rewrite blank_rev_app, andb_true_r. apply blank_lstrip.
Qed.

Lemma cards_widget_found (load : string -> string) :
  exists widget,
    In widget (widgets load)
    /\ identifier widget = "huggies-cards"
    /\ dict_getitem (WIDGETS_BY_ID load) "huggies-cards" = Return widget.
Proof.
  eexists. split; [|split; [|vm_compute; reflexivity]]; [cbn; tauto|reflexivity].
Qed.

Lemma keyword_search_at_most (KNOWLEDGE : list KnowledgeRecord) (q : string) (n : nat) :
  (length (keyword_search KNOWLEDGE q (Z.of_nat n)) <= n)%nat.
Proof.
  unfold keyword_search. rewrite slice_to_nat, length_firstn. lia.
Qed.

(** C7. A blank query, empty or made of white space only, is answered
    with the "query required" message and no results, whatever the
    knowledge store holds: the ranker has no part in it. Any other query
    is answered with at most three records: the three best of the ranker
    for the stripped query, or, when the ranker finds none, the first
    three records of the store in storage order. A record comes back with
    its id, title, answer, source URL and type as the store has them and
    with its tags, none when the store has none for it. *)
Theorem faq_lookup_contract (rt : PyRuntime) (KNOWLEDGE : list KnowledgeRecord)
    (load : string -> string) (query : string) :
  (blank query = true ->
   exists widget,
     identifier widget = "huggies-cards"
     /\ get_faq rt KNOWLEDGE load (PStr query)
        = Return (ResultEnvelope
            {| content := [text_content "Query is required"];
               structuredContent := Some (PDict
                 [ ("text", PStr "Query is required");
                   ("results", PList []);
                   ("widget", PDict [ ("widget_type", PStr "cards");
                                      ("cards", PList []) ]) ]);
               isError := false;
               _meta := Some (_tool_invocation_meta widget) |}))
  /\ (blank query = false ->
      let ranked := keyword_search KNOWLEDGE (PyStr.strip query) 3 in
      let matches := match ranked with
                     | [] => firstn 3 KNOWLEDGE
                     | _ :: _ => ranked
                     end in
      exists r,
        get_faq rt KNOWLEDGE load (PStr query) = Return (ResultEnvelope r)
        /\ isError r = false
        /\ structured ["results"] r
           = Some (PList (map (fun m =>
                                 PDict [ ("id", read_key (kr_id m));
                                         ("title", read_key (kr_title m));
                                         ("answer", read_key (kr_answer m));
                                         ("source_url", read_key (kr_source_url m));
                                         ("type", read_key (kr_type m));
                                         ("tags", PList (map PStr (default [] (kr_tags m)))) ])
                              matches))
        /\ (length matches <= 3)%nat).
Proof.
  destruct (cards_widget_found load) as (widget & _ & Hid & Hw).
  split.
  - intros Hblank. exists widget. split; [exact Hid|].
    unfold get_faq. rewrite Hw. cbn [mbind outcome_bind].
    unfold py_or. cbn [truthy].
    destruct (PyStr.is_empty query) eqn:Hq; cbn [negb meth_strip mbind outcome_bind].
    + reflexivity.
    + now rewrite strip_empty_iff_blank, Hblank.
  - intros Hblank ranked matches.
    unfold get_faq. rewrite Hw. cbn [mbind outcome_bind].
    unfold py_or. cbn [truthy].
    assert (Hq : PyStr.is_empty query = false).
    { destruct query; [discriminate Hblank|reflexivity]. }
    rewrite Hq. cbn [negb meth_strip mbind outcome_bind].
    rewrite strip_empty_iff_blank, Hblank.
    fold ranked. change (slice_to 3 KNOWLEDGE) with (slice_to (Z.of_nat 3) KNOWLEDGE).
    rewrite slice_to_nat. fold matches.
    eexists. split; [reflexivity|]. split; [reflexivity|].
    split.
    + cbn. now rewrite map_map.
    + subst matches. destruct ranked as [|m ms] eqn:E.
      * rewrite length_firstn. lia.
      * rewrite <- E. subst ranked.
        apply (keyword_search_at_most KNOWLEDGE (PyStr.strip query) 3).
Qed.

Lemma faq_lookup_contract_witness :
  (exists r,
     get_faq Sample.runtime Sample.knowledge Sample.load_html (PStr "  ")
     = Return (ResultEnvelope r)
     /\ structured ["text"] r = Some (PStr "Query is required")
     /\ structured ["results"] r = Some (PList []))
  /\ (exists r,
        get_faq Sample.runtime Sample.knowledge Sample.load_html (PStr " night diaper ")
        = Return (ResultEnvelope r)
        /\ structured ["results"] r
           = Some (PList
               [ PDict [ ("id", PStr "faq-004");
                         ("title", PStr "Overnight protection");
                         ("answer", PStr "A night diaper holds more and keeps the skin dry.");
                         ("source_url", PNone);
                         ("type", PStr "faq");
                         ("tags", PList [PStr "night"]) ];
                 PDict [ ("id", PStr "faq-001");
                         ("title", PStr "How often should I change a diaper?");
                         ("answer", PStr "Newborns need a change every two to three hours.");
                         ("source_url", PStr "https://www.huggies.com/faq/changes");
                         ("type", PStr "faq");
                         ("tags", PList [PStr "diaper"; PStr "newborn"]) ];
                 PDict [ ("id", PStr "faq-002");
                         ("title", PStr "Preventing diaper rash");
                         ("answer", PStr "Change wet diapers promptly and let the skin dry.");
                         ("source_url", PStr "https://www.huggies.com/faq/rash");
                         ("type", PStr "faq");
                         ("tags", PList [PStr "rash"; PStr "skin"]) ] ]))
  /\ (exists r,
        get_faq Sample.runtime Sample.knowledge Sample.load_html (PStr "stroller")
        = Return (ResultEnvelope r)
        /\ structured ["results"] r
           = Some (PList
               [ PDict [ ("id", PStr "faq-001");
                         ("title", PStr "How often should I change a diaper?");
                         ("answer", PStr "Newborns need a change every two to three hours.");
                         ("source_url", PStr "https://www.huggies.com/faq/changes");
                         ("type", PStr "faq");
                         ("tags", PList [PStr "diaper"; PStr "newborn"]) ];
                 PDict [ ("id", PStr "faq-002");
                         ("title", PStr "Preventing diaper rash");
                         ("answer", PStr "Change wet diapers promptly and let the skin dry.");
                         ("source_url", PStr "https://www.huggies.com/faq/rash");
                         ("type", PStr "faq");
                         ("tags", PList [PStr "rash"; PStr "skin"]) ];
                 PDict [ ("id", PStr "faq-003");
                         ("title", PStr "Choosing a size");
                         ("answer", PStr "Sizes follow the weight of the baby; size up on leaks.");
                         ("source_url", PNone);
                         ("type", PStr "guide");
                         ("tags", PList [PStr "size"; PStr "fit"]) ] ])).
Proof.
  split; [|split].
  - destruct (proj1 (faq_lookup_contract Sample.runtime Sample.knowledge Sample.load_html
                       "  ") eq_refl) as (widget & _ & H).
    eexists. split; [exact H|]. split; reflexivity.
  - destruct (proj2 (faq_lookup_contract Sample.runtime Sample.knowledge Sample.load_html
                       " night diaper ") eq_refl) as (r & H & _ & Hres & _).
    exists r. split; [exact H|]. rewrite Hres. vm_compute. reflexivity.
  - destruct (proj2 (faq_lookup_contract Sample.runtime Sample.knowledge Sample.load_html
                       "stroller") eq_refl) as (r & H & _ & Hres & _).
    exists r. split; [exact H|]. rewrite Hres. vm_compute. reflexivity.
Defined.

(** ** Listing the tools *)

Lemma dict_set_fresh {V : Type} (d : list (string * V)) (key : string) (v : V) :
  ~ In key (map fst d) -> dict_set d key v = (d ++ [(key, v)])%list.
Proof.
  induction d as [|[k w] t IH]; intros Hfresh; cbn [dict_set app]; [reflexivity|].
  cbn [map fst] in Hfresh.
  destruct (String.eqb_spec k key) as [->|Hne].
  - exfalso. apply Hfresh. now left.
  - rewrite IH; [reflexivity|]. intros Hin. apply Hfresh. now right.
Qed.

(** The loop of [_build_tool_schema] appends one property per parameter
    and one required name per parameter without default. *)
Lemma schema_loop (params : list SigParameter) :
  forall (properties : list (string * pyval)) (required : list string),
    NoDup (map fst properties ++ map param_name params) ->
    fold_left
      (fun (acc : list (string * pyval) * list string) p =>
         let '(properties, required) := acc in
         let param_type := "string" in
         let param_type :=
           match param_annotation p with
           | Some ann_str =>
               if PyStr.is_in "int" ann_str || PyStr.is_in "float" ann_str then "number"
               else if PyStr.is_in "bool" ann_str then "boolean"
               else param_type
           | None => param_type
           end in
         let properties :=
           dict_set properties (param_name p)
             (PDict [ ("type", PStr param_type);
                      ("description", PStr (param_name p)) ]) in
         let required :=
           match param_default p with
           | None => (required ++ [param_name p])%list
           | Some _ => required
           end in
         (properties, required))
      params (properties, required)
    = ((properties ++ map schema_property params)%list,
       (required ++ map param_name (List.filter has_no_default params))%list).
Proof.
  induction params as [|p t IH]; intros properties required Hnodup;
    cbn [fold_left map List.filter].
  - now rewrite !app_nil_r.
  - cbv zeta.
    assert (Hfresh : ~ In (param_name p) (map fst properties)).
    { intros Hin. apply NoDup_app in Hnodup as (_ & Hdisj & _).
      apply (Hdisj (param_name p)); [now apply list_elem_of_In|].
      cbn [map]. apply list_elem_of_here. }
    rewrite dict_set_fresh by exact Hfresh.
    rewrite IH.
    + unfold schema_property at 2, spec_param_type, has_no_default at 2.
      rewrite <- !app_assoc. cbn [app].
      destruct (param_default p); cbn [map app]; rewrite <- ?app_assoc; reflexivity.
    + rewrite map_app. cbn [map fst]. rewrite <- app_assoc. exact Hnodup.
Qed.

Lemma build_tool_schema_spec (func : Function) :
  NoDup (map param_name (fn_params func)) ->
  _build_tool_schema func = spec_schema (fn_params func).
Proof.
  intros Hnodup. unfold _build_tool_schema, spec_schema.
  rewrite schema_loop by exact Hnodup.
  cbn [app]. now rewrite map_map.
Qed.

Lemma list_tools_loop (load : string -> string)
    (registry : list (string * option Function)) :
  forall acc : list Tool,
  exists tools,
    fold_left
      (fun (acc : outcome (list Tool)) entry =>
         tools ← acc;
         let '(tool_name, tool_func) := entry in
         match tool_func with
         | None => mret tools
         | Some tool_func =>
             widget ← bound_widget load tool_name;
             let doc :=
               match fn_doc tool_func with
               | Some d => if PyStr.is_empty d then tool_name else d
               | None => tool_name
               end in
             let title :=
               if PyStr.is_empty doc then tool_name
               else PyStr.strip (hd "" (PyStr.split_on newline doc)) in
             meta ← on_widget _tool_meta "template_uri" widget;
             mret (tools ++ [ {| tool_name := tool_name;
                                 tool_title := title;
                                 tool_description := doc;
                                 inputSchema := _build_tool_schema tool_func;
                                 tool_meta := meta;
                                 annotations := [ ("destructiveHint", false);
                                                  ("openWorldHint", false);
                                                  ("readOnlyHint", true) ] |} ])%list
         end)
      registry (Return acc)
    = Return (acc ++ tools)%list
    /\ Forall2 (fun tool entry =>
                  tool_name tool = fst entry
                  /\ inputSchema tool = _build_tool_schema (snd entry))
               tools (registered registry).
Proof.
  match goal with |- context [fold_left ?body _ _] => set (step := body) end.
  induction registry as [|[name [f|]] t IH]; intros acc; cbn [fold_left].
  - exists []. split; [now rewrite app_nil_r|constructor].
  - destruct (bound_widget_found load name) as (widget & Hw & _ & _).
    assert (Hstep : exists tool,
               step (Return acc) (name, Some f) = Return (acc ++ [tool])%list
               /\ tool_name tool = name
               /\ inputSchema tool = _build_tool_schema f).
    { subst step. cbn [mbind outcome_bind]. rewrite Hw.
      cbn [mbind outcome_bind on_widget mret outcome_ret].
      eexists. split; [reflexivity|]. split; reflexivity. }
    destruct Hstep as (tool & -> & Hname & Hschema).
    destruct (IH (acc ++ [tool])%list) as (tools & Hloop & Hrel).
    exists (tool :: tools). split.
    + rewrite Hloop, <- app_assoc. reflexivity.
    + unfold registered. cbn [flat_map snd fst app].
      constructor; [split; assumption|exact Hrel].
  - change (step (Return acc) (name, None)) with (Return (A:=list Tool) acc).
    destruct (IH acc) as (tools & Hloop & Hrel). exists tools.
    split; [exact Hloop|exact Hrel].
Qed.

(** Whatever the registry holds, the listing returns one tool per
    registered function, with the schema of its signature. *)
Lemma list_tools_schemas (load : string -> string)
    (registry : list (string * option Function)) :
  (forall entry, In entry (registered registry) ->
                 NoDup (map param_name (fn_params (snd entry)))) ->
  exists tools,
    _list_tools load registry = Return tools
    /\ Forall2 (fun tool entry =>
                  tool_name tool = fst entry
                  /\ inputSchema tool = spec_schema (fn_params (snd entry)))
               tools (registered registry).
Proof.
  intros Hwf. unfold _list_tools.
  destruct (list_tools_loop load registry []) as (tools & Hloop & Hrel).
  exists tools. split; [exact Hloop|].
  clear Hloop. revert Hrel Hwf. generalize (registered registry).
  intros entries Hrel.
  induction Hrel as [|tool entry tools' entries' [Hname Hschema] _ IH];
    intros Hwf; constructor.
  - split; [exact Hname|].
    rewrite Hschema. apply build_tool_schema_spec, Hwf. now left.
  - apply IH. intros e He. apply Hwf. now right.
Qed.

Lemma registry_content (rt : PyRuntime) (KNOWLEDGE : list KnowledgeRecord)
    (load : string -> string) :
  _TOOL_FUNCTIONS rt KNOWLEDGE load
  = [ ("get_faq", Some (get_faq_fn rt KNOWLEDGE load));
      ("list_faqs", Some (list_faqs_fn KNOWLEDGE load));
      ("get_item_by_id", Some (get_item_by_id_fn rt KNOWLEDGE load));
      ("diaper_size_calc", Some (diaper_size_calc_fn rt load));
      ("map_widget", Some (map_widget_fn rt load));
      ("coupons", Some (coupons_fn load));
      ("suggest_names", Some (suggest_names_fn load));
      ("predict_gender", Some (predict_gender_fn load)) ].
Proof. reflexivity. Qed.

(** C8. For every registered tool, the schema [ListTools] advertises is
    built from the signature of its function: each parameter is typed
    ["number"] when the text of its type hint contains ["int"] or
    ["float"], else ["boolean"] when it contains ["bool"], else
    ["string"], and the required list holds exactly the parameters without
    a default. *)
Theorem listed_schema_follows_signature (rt : PyRuntime)
    (KNOWLEDGE : list KnowledgeRecord) (load : string -> string) :
  exists tools,
    _list_tools load (_TOOL_FUNCTIONS rt KNOWLEDGE load) = Return tools
    /\ map tool_name tools
       = [ "get_faq"; "list_faqs"; "get_item_by_id"; "diaper_size_calc";
           "map_widget"; "coupons"; "suggest_names"; "predict_gender" ]
    /\ Forall2 (fun tool entry =>
                  tool_name tool = fst entry
                  /\ inputSchema tool = spec_schema (fn_params (snd entry)))
               tools (registered (_TOOL_FUNCTIONS rt KNOWLEDGE load)).
Proof.
  destruct (list_tools_schemas load (_TOOL_FUNCTIONS rt KNOWLEDGE load))
    as (tools & Hlist & Hrel).
  { rewrite registry_content. unfold registered. cbn [flat_map snd fst app].
    intros entry Hin.
    repeat (destruct Hin as [<-|Hin];
            [apply (bool_decide_unpack _); vm_compute; exact I|]).
    destruct Hin. }
  exists tools. split; [exact Hlist|]. split; [|exact Hrel].
  assert (Hnames : map tool_name tools
                   = map fst (registered (_TOOL_FUNCTIONS rt KNOWLEDGE load))).
  { clear Hlist. induction Hrel as [|tool entry ts es [Hname _] _ IH]; [reflexivity|].
    cbn [map]. now rewrite Hname, IH. }
  rewrite Hnames, registry_content. reflexivity.
Qed.

(** ** The server on sample requests *)

Example odd_day_is_a_boy :
  exists r,
    _call_tool_request Sample.runtime Sample.load_html Sample.registry
      (Sample.call_request "predict_gender" [ ("due_date", PStr "2025-06-15") ])
    = Return (CallToolResponse r)
    /\ structured ["backend"; "prediction"] r = Some (PStr "boy").
Proof. eexists. split; [vm_compute; reflexivity|reflexivity]. Qed.

Example overlong_day_is_unknown :
  exists r,
    predict_gender Sample.load_html
      (PStr ("2025-06-" +:+ string_of_list_ascii (repeat "1"%char 4301))) PNone
    = Return (ResultEnvelope r)
    /\ structured ["backend"; "prediction"] r = Some (PStr "unknown").
Proof. eexists. split; vm_compute; reflexivity. Qed.

Example thirteen_pounds_is_size_one :
  exists r,
    _call_tool_request Sample.runtime Sample.load_html Sample.registry
      (Sample.call_request "diaper_size_calc" [ ("weight_lb", PInt 13) ])
    = Return (CallToolResponse r)
    /\ structured ["backend"; "recommended_size"] r = Some (PStr "1")
    /\ structured ["text"] r
       = Some (PStr ("For approx 13.0 lbs, recommended size: 1 (8–14 lbs). " +:+ advice)).
Proof. eexists. split; [vm_compute; reflexivity|]. split; reflexivity. Qed.

Example title_match_outranks_answer_match :
  map kr_id (keyword_search Sample.knowledge "Overnight" 3) = [ Some "faq-004" ]
  /\ map kr_id (keyword_search Sample.knowledge "dry" 3) = [ Some "faq-002"; Some "faq-004" ]
  /\ map kr_id (keyword_search Sample.knowledge "diaper" 3)
     = [ Some "faq-001"; Some "faq-002"; Some "faq-004" ].
Proof. repeat split; reflexivity. Qed.

Example no_name_starts_with_zo :
  exists r,
    _call_tool_request Sample.runtime Sample.load_html Sample.registry
      (Sample.call_request "suggest_names" [ ("prefix", PStr "zo") ])
    = Return (CallToolResponse r)
    /\ isError r = false
    /\ structured ["backend"; "names"] r = Some (PList []).
Proof. eexists. split; [vm_compute; reflexivity|]. split; reflexivity. Qed.

(** ** Lookup by id *)

Lemma find_first {A : Type} (p : A -> bool) (l : list A) :
  match List.find p l with
  | Some x =>
      exists earlier later,
        l = (earlier ++ x :: later)%list
        /\ p x = true
        /\ Forall (fun y => p y = false) earlier
  | None => Forall (fun y => p y = false) l
  end.
Proof.
  induction l as [|a t IH]; cbn [List.find]; [constructor|].
  destruct (p a) eqn:Ha.
  - exists [], t. repeat split; [exact Ha|constructor].
  - destruct (List.find p t) as [x|].
    + destruct IH as (earlier & later & -> & Hx & Hearlier).
      exists (a :: earlier), later. repeat split; [exact Hx|].
      now constructor.
    + now constructor.
Qed.

Lemma id_equals_str (field : option string) (s : string) :
  id_equals field (PStr s) = true <-> field = Some s.
Proof.
  destruct field as [t|]; cbn [id_equals].
  - rewrite String.eqb_eq. split; congruence.
  - split; discriminate.
Qed.

Lemma id_differs_str (field : option string) (s : string) :
  id_equals field (PStr s) = false <-> field <> Some s.
Proof.
  rewrite <- id_equals_str. destruct (id_equals field (PStr s)); split; congruence.
Qed.

(** X1. [find_by_id] with a string id returns the first record of the
    store, in storage order, whose id is that string, and [None] exactly
    when no record has it; an id that is neither a string nor [None]
    matches no record. *)
Theorem find_by_id_first_match (KNOWLEDGE : list KnowledgeRecord) (item_id : pyval) :
  match item_id with
  | PStr s =>
      match find_by_id KNOWLEDGE item_id with
      | Some item =>
          exists earlier later,
            KNOWLEDGE = (earlier ++ item :: later)%list
            /\ kr_id item = Some s
            /\ Forall (fun r => kr_id r <> Some s) earlier
      | None => Forall (fun r => kr_id r <> Some s) KNOWLEDGE
      end
  | PNone => True
  | _ => find_by_id KNOWLEDGE item_id = None
  end.
Proof.
  destruct item_id as [| | | |s| |]; try exact I;
    try (unfold find_by_id; apply find_absent; intros r _;
         destruct (kr_id r); reflexivity).
  unfold find_by_id.
  pose proof (find_first (fun item => id_equals (kr_id item) (PStr s)) KNOWLEDGE) as H.
  destruct (List.find _ KNOWLEDGE) as [item|].
  - destruct H as (earlier & later & -> & Hid & Hearlier).
    exists earlier, later. split; [reflexivity|].
    split; [now apply id_equals_str|].
    eapply List.Forall_impl; [|exact Hearlier].
    intros r Hr. now apply id_differs_str.
  - eapply List.Forall_impl; [|exact H].
    intros r Hr. now apply id_differs_str.
Qed.

Lemma find_by_id_some (KNOWLEDGE : list KnowledgeRecord) (s : string) (r : KnowledgeRecord) :
  In r KNOWLEDGE -> kr_id r = Some s ->
  exists item, find_by_id KNOWLEDGE (PStr s) = Some item /\ kr_id item = Some s.
Proof.
  intros Hin Hid. unfold find_by_id.
  destruct (List.find _ KNOWLEDGE) as [item|] eqn:E.
  - exists item. split; [reflexivity|].
    apply find_some in E as (_ & E). now apply id_equals_str.
  - exfalso. apply (find_none _ _ E) in Hin.
    apply id_differs_str in Hin. contradiction.
Qed.

Lemma find_by_id_none (KNOWLEDGE : list KnowledgeRecord) (s : string) :
  (forall r, In r KNOWLEDGE -> kr_id r <> Some s) ->
  find_by_id KNOWLEDGE (PStr s) = None.
Proof.
  intros H. unfold find_by_id. apply find_absent.
  intros r Hr. apply id_differs_str. now apply H.
Qed.

(** A string id that some record carries is fetched without error. *)
Lemma get_item_found (rt : PyRuntime) (KNOWLEDGE : list KnowledgeRecord)
    (load : string -> string) (s : string) (item : KnowledgeRecord) :
  find_by_id KNOWLEDGE (PStr s) = Some item -> kr_id item = Some s ->
  exists r,
    get_item_by_id rt KNOWLEDGE load (PStr s) = Return (ResultEnvelope r)
    /\ isError r = false
    /\ structured ["item"] r = Some (PDict (record_fields item))
    /\ structured ["item"; "id"] r = Some (PStr s)
    /\ content r
       = [text_content (py_str rt (opt_str (kr_title item)) +:+ ": "
                          +:+ PyStr.take 300 (get_or_empty (kr_answer item)) +:+ "...")].
Proof.
  intros Hfind Hid. unfold get_item_by_id.
  destruct (cards_widget_found load) as (widget & _ & _ & ->).
  cbn [mbind outcome_bind]. rewrite Hfind.
  unfold record_fields. rewrite Hid. cbn [app truthy].
  eexists. split; [reflexivity|]. split; [reflexivity|].
  split; [reflexivity|]. split; [|reflexivity].
  unfold structured. cbn. reflexivity.
Qed.

(** X2. [get_item_by_id] with a string id: when some record of the store
    has that id the answer is an ordinary envelope that carries the first
    such record whole, with a text made of its title and the first 300
    characters of its answer; when no record has it the answer is an
    envelope with the error flag set and the text that names the id. *)
Theorem get_item_by_id_hit_or_miss (rt : PyRuntime) (KNOWLEDGE : list KnowledgeRecord)
    (load : string -> string) (s : string) :
  ((exists r, In r KNOWLEDGE /\ kr_id r = Some s) ->
   exists item r,
     find_by_id KNOWLEDGE (PStr s) = Some item
     /\ get_item_by_id rt KNOWLEDGE load (PStr s) = Return (ResultEnvelope r)
     /\ isError r = false
     /\ structured ["item"] r = Some (PDict (record_fields item))
     /\ structured ["item"; "id"] r = Some (PStr s)
     /\ content r
        = [text_content (py_str rt (opt_str (kr_title item)) +:+ ": "
                           +:+ PyStr.take 300 (get_or_empty (kr_answer item)) +:+ "...")])
  /\ ((forall r, In r KNOWLEDGE -> kr_id r <> Some s) ->
      exists r,
        get_item_by_id rt KNOWLEDGE load (PStr s) = Return (ResultEnvelope r)
        /\ isError r = true
        /\ content r = [text_content ("Item with id=" +:+ s +:+ " not found")]
        /\ structured ["error"] r = Some (PStr ("Item with id=" +:+ s +:+ " not found"))
        /\ structured ["item"] r = None).
Proof.
  split.
  - intros (r0 & Hin & Hid).
    destruct (find_by_id_some KNOWLEDGE s r0 Hin Hid) as (item & Hfind & Hitem).
    destruct (get_item_found rt KNOWLEDGE load s item Hfind Hitem) as (r & H).
    exists item, r. split; [exact Hfind|exact H].
  - intros Hnone. unfold get_item_by_id.
    destruct (cards_widget_found load) as (widget & _ & _ & ->).
    cbn [mbind outcome_bind]. rewrite (find_by_id_none KNOWLEDGE s Hnone).
    eexists. split; [reflexivity|]. repeat split; reflexivity.
Qed.

Lemma get_item_by_id_hit_or_miss_witness :
  (exists r,
     get_item_by_id Sample.runtime Sample.knowledge Sample.load_html (PStr "faq-003")
     = Return (ResultEnvelope r)
     /\ isError r = false
     /\ structured ["item"; "id"] r = Some (PStr "faq-003"))
  /\ (exists r,
        get_item_by_id Sample.runtime Sample.knowledge Sample.load_html (PStr "faq-999")
        = Return (ResultEnvelope r)
        /\ isError r = true
        /\ content r = [text_content "Item with id=faq-999 not found"]).
Proof.
  split.
  - destruct (proj1 (get_item_by_id_hit_or_miss Sample.runtime Sample.knowledge
                       Sample.load_html "faq-003"))
      as (item & r & _ & Hr & Herr & _ & Hid & _).
    { eexists. split; [cbn; right; right; left; reflexivity|reflexivity]. }
    exists r. auto.
  - destruct (proj2 (get_item_by_id_hit_or_miss Sample.runtime Sample.knowledge
                       Sample.load_html "faq-999"))
      as (r & Hr & Herr & Htext & _).
    { intros r Hin. cbn in Hin.
      repeat (destruct Hin as [<-|Hin]; [discriminate|]). destruct Hin. }
    exists r. auto.
Defined.

(** X3. [list_faqs] never flags an error: it gives one entry per record
    of the store, in storage order, and a text with their number; and
    every string id it lists can be fetched with [get_item_by_id] without
    error. *)
Theorem listed_ids_can_be_fetched (rt : PyRuntime) (KNOWLEDGE : list KnowledgeRecord)
    (load : string -> string) :
  exists r items,
    list_faqs KNOWLEDGE load = Return (ResultEnvelope r)
    /\ isError r = false
    /\ content r
       = [text_content (PyStr.str_of_int (Z.of_nat (length KNOWLEDGE))
                          +:+ " FAQs available.")]
    /\ structured ["results"] r = Some (PList items)
    /\ Forall2 (fun item record =>
                  field_at ["id"] item = Some (opt_str (kr_id record))
                  /\ field_at ["title"] item = Some (opt_str (kr_title record))
                  /\ field_at ["type"] item = Some (opt_str (kr_type record))
                  /\ field_at ["answer"] item = None)
               items KNOWLEDGE
    /\ forall item s,
         In item items -> field_at ["id"] item = Some (PStr s) ->
         exists fetched,
           get_item_by_id rt KNOWLEDGE load (PStr s) = Return (ResultEnvelope fetched)
           /\ isError fetched = false
           /\ structured ["item"; "id"] fetched = Some (PStr s).
Proof.
  unfold list_faqs.
  destruct (cards_widget_found load) as (widget & _ & _ & ->).
  cbn [mbind outcome_bind mret outcome_ret].
  eexists. eexists. split; [reflexivity|]. split; [reflexivity|].
  split; [now rewrite length_map|]. split; [reflexivity|]. split.
  - induction KNOWLEDGE as [|record t IH]; cbn [map]; constructor; [|exact IH].
    repeat split; reflexivity.
  - intros item s Hin Hid.
    apply in_map_iff in Hin as (record & <- & Hin).
    cbn in Hid. injection Hid as Hid.
    assert (Hrec : kr_id record = Some s).
    { destruct (kr_id record); [now injection Hid as ->|discriminate Hid]. }
    destruct (find_by_id_some KNOWLEDGE s record Hin Hrec) as (found & Hfind & Hfound).
    destruct (get_item_found rt KNOWLEDGE load s found Hfind Hfound)
      as (fetched & H & Herr & _ & Hitem & _).
    exists fetched. auto.
Qed.

Lemma listed_ids_can_be_fetched_witness :
  exists r items,
    list_faqs Sample.knowledge Sample.load_html = Return (ResultEnvelope r)
    /\ structured ["results"] r = Some (PList items)
    /\ length items = 4%nat
    /\ exists fetched,
         get_item_by_id Sample.runtime Sample.knowledge Sample.load_html (PStr "faq-002")
         = Return (ResultEnvelope fetched)
         /\ isError fetched = false.
Proof.
  destruct (listed_ids_can_be_fetched Sample.runtime Sample.knowledge Sample.load_html)
    as (r & items & Hr & _ & _ & Hitems & Hall & Hfetch).
  exists r, items. split; [exact Hr|]. split; [exact Hitems|].
  split; [now rewrite (Forall2_length _ _ _ Hall)|].
  vm_compute in Hr. injection Hr as <-.
  vm_compute in Hitems. injection Hitems as <-.
  destruct (Hfetch (PDict [ ("id", PStr "faq-002");
                            ("title", PStr "Preventing diaper rash");
                            ("type", PStr "faq") ]) "faq-002")
    as (fetched & H & Herr & _); [cbn; tauto|reflexivity|].
  exists fetched. auto.
Defined.

(** ** More on the ranker *)

Lemma in_slice_to {A : Type} (n : Z) (l : list A) (x : A) :
  In x (slice_to n l) -> In x l.
Proof.
  unfold slice_to.
  assert (Hfirst : forall k (m : list A), In x (firstn k m) -> In x m).
  { induction k as [|k IH]; intros [|a m]; cbn [firstn In]; try tauto.
    intros [->|H]; [now left|right; now apply IH]. }
  destruct (0 <=? n); apply Hfirst.
Qed.

Lemma ranked_hits (KNOWLEDGE : list KnowledgeRecord) (query : string) (top_n : Z) :
  keyword_search KNOWLEDGE query top_n
  = slice_to top_n (map snd (sort_desc (spec_hits KNOWLEDGE (PyStr.lower query)))).
Proof.
  unfold keyword_search. now rewrite hits_loop.
Qed.

(** X4. Whatever [top_n] is, negative included, [keyword_search] only
    returns records of the store, and only records that score above zero
    against the lowercased query; it never returns more records than the
    store holds. *)
Theorem keyword_search_sound (KNOWLEDGE : list KnowledgeRecord) (query : string)
    (top_n : Z) :
  (forall item,
      In item (keyword_search KNOWLEDGE query top_n) ->
      In item KNOWLEDGE /\ 0 < spec_score (PyStr.lower query) item)
  /\ (length (keyword_search KNOWLEDGE query top_n) <= length KNOWLEDGE)%nat.
Proof.
  rewrite ranked_hits. split.
  - intros item Hin. apply in_slice_to in Hin.
    apply in_map_iff in Hin as ((score & item') & Heq & Hin). cbn [snd] in Heq. subst item'.
    apply (Permutation_in _ (sort_desc_perm _)) in Hin.
    unfold spec_hits in Hin. apply filter_In in Hin as (Hin & Hpos).
    apply in_map_iff in Hin as (item' & Heq & Hin). injection Heq as <- ->.
    split; [exact Hin|]. cbn [fst] in Hpos. lia.
  - unfold slice_to.
    assert (Hlen : (length (map snd (sort_desc (spec_hits KNOWLEDGE (PyStr.lower query))))
                    <= length KNOWLEDGE)%nat).
    { rewrite length_map, (Permutation_length (sort_desc_perm _)).
      unfold spec_hits.
      etransitivity; [apply List.filter_length_le|]. now rewrite length_map. }
    destruct (0 <=? top_n); rewrite length_firstn; lia.
Qed.

Lemma keyword_search_sound_witness :
  exists item,
    In item (keyword_search Sample.knowledge "Diaper" (-1))
    /\ In item Sample.knowledge
    /\ 0 < spec_score "diaper" item.
Proof.
  destruct (keyword_search Sample.knowledge "Diaper" (-1)) as [|item rest] eqn:E;
    [vm_compute in E; discriminate E|].
  exists item.
  assert (Hin : In item (keyword_search Sample.knowledge "Diaper" (-1))).
  { rewrite E. now left. }
  split; [rewrite <- E; exact Hin|].
  exact (proj1 (keyword_search_sound Sample.knowledge "Diaper" (-1)) item Hin).
Defined.

Lemma is_in_empty (hay : string) : PyStr.is_in "" hay = true.
Proof. destruct hay; reflexivity. Qed.

Lemma empty_query_scores (item : KnowledgeRecord) : (0 <? spec_score "" item) = true.
Proof.
  apply Z.ltb_lt. unfold spec_score. rewrite !is_in_empty. unfold count_if. lia.
Qed.

Lemma empty_query_hits (KNOWLEDGE : list KnowledgeRecord) :
  map snd (spec_hits KNOWLEDGE "") = KNOWLEDGE.
Proof.
  unfold spec_hits.
  induction KNOWLEDGE as [|item t IH]; cbn [map List.filter fst]; [reflexivity|].
  rewrite empty_query_scores. cbn [map snd]. now rewrite IH.
Qed.

(** X5. The empty query matches every record: the title and the question
    of any record contain the empty string, so [keyword_search] returns
    [top_n] records of a store that has that many, and all of them when
    it has fewer. *)
Theorem empty_query_matches_everything (KNOWLEDGE : list KnowledgeRecord) (top_n : nat) :
  length (keyword_search KNOWLEDGE "" (Z.of_nat top_n)) = Nat.min top_n (length KNOWLEDGE)
  /\ Permutation (keyword_search KNOWLEDGE "" (Z.of_nat (length KNOWLEDGE))) KNOWLEDGE.
Proof.
  rewrite !ranked_hits, !slice_to_nat. cbn [PyStr.lower].
  assert (Hperm : Permutation (map snd (sort_desc (spec_hits KNOWLEDGE ""))) KNOWLEDGE).
  { rewrite <- (empty_query_hits KNOWLEDGE) at 2.
    apply Permutation_map, sort_desc_perm. }
  split.
  - rewrite length_firstn. now rewrite (Permutation_length Hperm).
  - rewrite firstn_all2; [exact Hperm|].
    now rewrite (Permutation_length Hperm).
Qed.

(** ** More on the FAQ lookup *)

(** X6. On an empty store a query that is not blank is answered without
    error, with no results, no cards and a text that quotes the stripped
    query. *)
Theorem faq_lookup_on_empty_store (rt : PyRuntime) (load : string -> string)
    (query : string) :
  blank query = false ->
  exists r,
    get_faq rt [] load (PStr query) = Return (ResultEnvelope r)
    /\ isError r = false
    /\ content r
       = [text_content ("No matching FAQ found for " +:+ dquote
                          +:+ PyStr.strip query +:+ dquote +:+ ".")]
    /\ structured ["results"] r = Some (PList [])
    /\ structured ["widget"; "cards"] r = Some (PList []).
Proof.
  intros Hblank. unfold get_faq.
  destruct (cards_widget_found load) as (widget & _ & _ & ->).
  cbn [mbind outcome_bind]. unfold py_or. cbn [truthy].
  assert (Hq : PyStr.is_empty query = false).
  { destruct query; [discriminate Hblank|reflexivity]. }
  rewrite Hq. cbn [negb meth_strip mbind outcome_bind].
  rewrite strip_empty_iff_blank, Hblank.
  eexists. split; [reflexivity|]. repeat split; reflexivity.
Qed.

Lemma faq_lookup_on_empty_store_witness :
  exists r,
    get_faq Sample.runtime [] Sample.load_html (PStr " teething ")
    = Return (ResultEnvelope r)
    /\ isError r = false
    /\ content r
       = [text_content ("No matching FAQ found for " +:+ dquote +:+ "teething"
                          +:+ dquote +:+ ".")]
    /\ structured ["results"] r = Some (PList [])
    /\ structured ["widget"; "cards"] r = Some (PList []).
Proof.
  apply (faq_lookup_on_empty_store Sample.runtime Sample.load_html " teething ").
  reflexivity.
Defined.

(** X7. A query that is not a string: when it is falsy ([None], [False],
    zero, an empty list or dictionary) [get_faq] answers as for a blank
    query, with the "query required" message and no results; when it is
    truthy [get_faq] raises an [AttributeError] for [strip] and builds no
    envelope. *)
Theorem faq_lookup_of_non_string (rt : PyRuntime) (KNOWLEDGE : list KnowledgeRecord)
    (load : string -> string) (query : pyval) :
  match query with
  | PStr _ => True
  | _ =>
      if truthy query then
        get_faq rt KNOWLEDGE load query = Raise (AttributeError (type_name query) "strip")
      else
        exists r,
          get_faq rt KNOWLEDGE load query = Return (ResultEnvelope r)
          /\ isError r = false
          /\ content r = [text_content "Query is required"]
          /\ structured ["results"] r = Some (PList [])
  end.
Proof.
  destruct (cards_widget_found load) as (widget & _ & _ & Hw).
  destruct query as [|b|n|x|s|l|d]; try exact I;
    unfold get_faq; rewrite Hw; cbn [mbind outcome_bind]; unfold py_or.
  - cbn. eexists. split; [reflexivity|]. repeat split; reflexivity.
  - destruct b; cbn; [reflexivity|].
    eexists. split; [reflexivity|]. repeat split; reflexivity.
  - destruct (truthy (PInt n)); cbn; [reflexivity|].
    eexists. split; [reflexivity|]. repeat split; reflexivity.
  - destruct (truthy (PFloat x)); cbn; [reflexivity|].
    eexists. split; [reflexivity|]. repeat split; reflexivity.
  - destruct l; cbn; [|reflexivity].
    eexists. split; [reflexivity|]. repeat split; reflexivity.
  - destruct d; cbn; [|reflexivity].
    eexists. split; [reflexivity|]. repeat split; reflexivity.
Qed.

(** X8. In the answer of [get_faq] to a query that is not blank the cards
    mirror the results one for one: a card carries the title, the answer,
    the id and the source URL of its result, [None] where the record
    lacks the field; and the text is the title and the answer of the
    first result. *)
Theorem faq_cards_mirror_results (rt : PyRuntime) (KNOWLEDGE : list KnowledgeRecord)
    (load : string -> string) (query : string) :
  blank query = false ->
  exists r results cards,
    get_faq rt KNOWLEDGE load (PStr query) = Return (ResultEnvelope r)
    /\ structured ["results"] r = Some (PList (map PDict results))
    /\ structured ["widget"; "cards"] r = Some (PList cards)
    /\ Forall2 (fun result card =>
                  field_at ["type"] card = Some (PStr "card")
                  /\ field_at ["title"] card = dict_get result "title"
                  /\ field_at ["text"] card = dict_get result "answer"
                  /\ field_at ["meta"; "id"] card = dict_get result "id"
                  /\ field_at ["meta"; "source_url"] card = dict_get result "source_url")
               results cards
    /\ match results with
       | top :: _ =>
           content r
           = [text_content (py_str rt (default PNone (dict_get top "title")) +:+ ": "
                              +:+ py_str rt (default PNone (dict_get top "answer")))]
       | [] => KNOWLEDGE = []
       end.
Proof.
  intros Hblank. unfold get_faq.
  destruct (cards_widget_found load) as (widget & _ & _ & ->).
  cbn [mbind outcome_bind]. unfold py_or. cbn [truthy].
  assert (Hq : PyStr.is_empty query = false).
  { destruct query; [discriminate Hblank|reflexivity]. }
  rewrite Hq. cbn [negb meth_strip mbind outcome_bind].
  rewrite strip_empty_iff_blank, Hblank.
  set (matches := match keyword_search KNOWLEDGE (PyStr.strip query) 3 with
                  | [] => slice_to 3 KNOWLEDGE
                  | _ :: _ => keyword_search KNOWLEDGE (PyStr.strip query) 3
                  end).
  eexists. exists (map faq_result matches), (map faq_card (map faq_result matches)).
  split; [reflexivity|]. split; [reflexivity|]. split; [reflexivity|]. split.
  - induction matches as [|m t IH]; cbn [map]; constructor; [|exact IH].
    repeat split; reflexivity.
  - destruct matches as [|m t] eqn:E; cbn [map]; [|reflexivity].
    subst matches.
    destruct (keyword_search KNOWLEDGE (PyStr.strip query) 3); [|discriminate E].
    destruct KNOWLEDGE; [reflexivity|discriminate E].
Qed.

Lemma faq_cards_mirror_results_witness :
  exists r cards,
    get_faq Sample.runtime Sample.knowledge Sample.load_html (PStr "size")
    = Return (ResultEnvelope r)
    /\ structured ["widget"; "cards"] r = Some (PList cards)
    /\ length cards = 1%nat
    /\ content r
       = [text_content
            "Choosing a size: Sizes follow the weight of the baby; size up on leaks."].
Proof.
  destruct (faq_cards_mirror_results Sample.runtime Sample.knowledge Sample.load_html
              "size" eq_refl) as (r & results & cards & Hr & _ & Hcards & _ & _).
  exists r, cards. split; [exact Hr|]. split; [exact Hcards|].
  vm_compute in Hr. injection Hr as <-.
  vm_compute in Hcards. injection Hcards as <-.
  split; reflexivity.
Defined.

(** ** More on the size calculator *)

(** A float that is not below or at [hi] is a NaN or lies above every
    float [lo] that is not above [hi]; either way the test [lo <= w]
    adds nothing to a test [w <= x]. *)
Lemma lower_bound_is_redundant (lo hi w x : float) (m_lo m_hi : positive) (e_lo e_hi : Z) :
  Prim2SF lo = S754_finite false m_lo e_lo ->
  Prim2SF hi = S754_finite false m_hi e_hi ->
  e_lo < e_hi \/ (e_lo = e_hi /\ (m_lo <= m_hi)%positive) ->
  PrimFloat.leb w hi = false ->
  PrimFloat.leb lo w && PrimFloat.leb w x = PrimFloat.leb w x.
Proof.
  intros Hlo Hhi Horder Hw.
  rewrite !FloatAxioms.leb_spec in *. rewrite Hlo. rewrite Hhi in Hw.
  unfold SFleb in *.
  destruct (Prim2SF w) as [s|s| |s m e]; cbn [SFcompare] in *.
  - destruct s; discriminate Hw.
  - destruct s; [discriminate Hw|reflexivity].
  - reflexivity.
  - destruct s; [discriminate Hw|].
    change (Pos.compare_cont Eq m m_hi) with (Pos.compare m m_hi) in Hw.
    change (Pos.compare_cont Eq m_lo m) with (Pos.compare m_lo m).
    destruct (Z.compare_spec e e_hi) as [He|He|He]; [|discriminate Hw|].
    + destruct (Pos.compare_spec m m_hi) as [Hm|Hm|Hm]; try discriminate Hw.
      destruct (Z.compare_spec e_lo e) as [Hl|Hl|Hl]; [|reflexivity|lia].
      destruct (Pos.compare_spec m_lo m) as [Hn|Hn|Hn]; [reflexivity|reflexivity|lia].
    + destruct (Z.compare_spec e_lo e) as [Hl|Hl|Hl]; [|reflexivity|lia].
      destruct (Pos.compare_spec m_lo m) as [Hn|Hn|Hn]; [reflexivity|reflexivity|lia].
Qed.

(** X9. The lower bounds of the weight bands never decide: a weight that
    the earlier bands let through is above the lower bound of the next
    one, so the size is fixed by the upper bounds 10, 14, 18, 28, 37 and
    40 alone, and a weight that is not a number gets size 6. *)
Theorem size_is_fixed_by_upper_bounds (w : float) : size_band w = by_upper_bound w.
Proof.
  unfold size_band, by_upper_bound.
  destruct (PrimFloat.leb w 10) eqn:H10; [reflexivity|].
  rewrite (lower_bound_is_redundant 8 10 w 14 _ _ _ _ eq_refl eq_refl)
    by (first [left; reflexivity | right; split; [reflexivity|discriminate]] || exact H10).
  destruct (PrimFloat.leb w 14) eqn:H14; [reflexivity|].
  rewrite (lower_bound_is_redundant 12 14 w 18 _ _ _ _ eq_refl eq_refl)
    by (first [left; reflexivity | right; split; [reflexivity|discriminate]] || exact H14).
  destruct (PrimFloat.leb w 18) eqn:H18; [reflexivity|].
  rewrite (lower_bound_is_redundant 16 18 w 28 _ _ _ _ eq_refl eq_refl)
    by (first [left; reflexivity | right; split; [reflexivity|discriminate]] || exact H18).
  destruct (PrimFloat.leb w 28) eqn:H28; [reflexivity|].
  rewrite (lower_bound_is_redundant 22 28 w 37 _ _ _ _ eq_refl eq_refl)
    by (first [left; reflexivity | right; split; [reflexivity|discriminate]] || exact H28).
  destruct (PrimFloat.leb w 37) eqn:H37; [reflexivity|].
  rewrite (lower_bound_is_redundant 27 37 w 40 _ _ _ _ eq_refl eq_refl)
    by (first [left; reflexivity | right; split; [reflexivity|discriminate]] || exact H37).
  reflexivity.
Qed.

(** X10. Pounds take precedence: when [weight_lb] is given, the answer of
    the size calculator does not depend on [weight_kg]. *)
Theorem pounds_take_precedence (rt : PyRuntime) (load : string -> string)
    (weight_kg1 weight_kg2 weight_lb : pyval) :
  weight_lb <> PNone ->
  diaper_size_calc rt load weight_kg1 weight_lb
  = diaper_size_calc rt load weight_kg2 weight_lb.
Proof.
  intros Hlb. unfold diaper_size_calc.
  assert (Hnot : is_None weight_lb = false).
  { destruct weight_lb; try reflexivity. contradiction. }
  rewrite Hnot, !andb_false_r. cbn [andb]. reflexivity.
Qed.

Lemma pounds_take_precedence_witness :
  diaper_size_calc Sample.runtime Sample.load_html (PInt 2) (PInt 30)
  = diaper_size_calc Sample.runtime Sample.load_html (PStr "heavy") (PInt 30).
Proof.
  apply (pounds_take_precedence Sample.runtime Sample.load_html
           (PInt 2) (PStr "heavy") (PInt 30)).
  discriminate.
Defined.

(** X11. When a weight is given but the one the calculator uses cannot be
    converted to a float, the calculator raises the error of that
    conversion and builds no envelope; the dispatcher then answers with
    its error envelope for that exception. *)
Theorem unconvertible_weight_raises (rt : PyRuntime) (KNOWLEDGE : list KnowledgeRecord)
    (load : string -> string) (weight_kg weight_lb : pyval) (e : exn) :
  is_None weight_kg && is_None weight_lb = false ->
  py_float rt (weight_used weight_kg weight_lb) = Raise e ->
  diaper_size_calc rt load weight_kg weight_lb = Raise e
  /\ _call_tool_request rt load (_TOOL_FUNCTIONS rt KNOWLEDGE load)
       {| req_name := "diaper_size_calc";
          req_arguments := Some (<["weight_kg" := weight_kg]>
                                   (<["weight_lb" := weight_lb]> ∅)) |}
     = Return (CallToolResponse
                 (error_envelope ("Tool execution error: " +:+ str_of_exn rt e))).
Proof.
  intros Hgiven Hraise.
  assert (Hcalc : diaper_size_calc rt load weight_kg weight_lb = Raise e).
  { unfold diaper_size_calc, weight_used in *.
    destruct (size_widget_found load) as (widget & _ & ->).
    cbn [mbind outcome_bind]. rewrite Hgiven.
    destruct (is_None weight_lb) eqn:Hlb.
    - rewrite andb_true_r in Hgiven. rewrite Hgiven. cbn [negb andb].
      rewrite Hraise. reflexivity.
    - cbn [andb mret outcome_ret mbind outcome_bind]. rewrite Hraise. reflexivity. }
  split; [exact Hcalc|].
  unfold _call_tool_request.
  change (mjoin (dict_get (_TOOL_FUNCTIONS rt KNOWLEDGE load)
                   (req_name {| req_name := "diaper_size_calc";
                                req_arguments := Some (<["weight_kg" := weight_kg]>
                                                         (<["weight_lb" := weight_lb]> ∅)) |})))
    with (Some (diaper_size_calc_fn rt load)).
  cbn [req_arguments default from_option]. unfold id.
  rewrite call_binds.
  - unfold diaper_size_calc_fn. cbn [fn_body]. cbv beta.
    rewrite lookup_insert_eq, lookup_insert_ne by discriminate.
    rewrite lookup_insert_eq. now rewrite Hcalc.
  - intros k Hk. apply elem_of_dom in Hk as (v & Hv).
    destruct (String.eqb_spec "weight_kg" k) as [<-|H1]; [cbn; tauto|].
    rewrite lookup_insert_ne in Hv by exact H1.
    destruct (String.eqb_spec "weight_lb" k) as [<-|H2]; [cbn; tauto|].
    rewrite lookup_insert_ne in Hv by exact H2.
    rewrite lookup_empty in Hv. discriminate Hv.
  - intros p Hp. cbn in Hp. destruct Hp as [<-|[<-|[]]]; cbn; eauto.
Qed.

Lemma unconvertible_weight_raises_witness :
  diaper_size_calc Sample.runtime Sample.load_html PNone (PStr "heavy")
  = Raise (ValueError_float "heavy")
  /\ _call_tool_request Sample.runtime Sample.load_html Sample.registry
       {| req_name := "diaper_size_calc";
          req_arguments := Some (<["weight_kg" := PNone]>
                                   (<["weight_lb" := PStr "heavy"]> ∅)) |}
     = Return (CallToolResponse
                 (error_envelope
                    "Tool execution error: could not convert string to float: 'heavy'")).
Proof.
  apply (unconvertible_weight_raises Sample.runtime Sample.knowledge Sample.load_html
           PNone (PStr "heavy") (ValueError_float "heavy")); reflexivity.
Defined.

(** ** Name suggestions *)

Lemma catalog_widget_found (load : string -> string) (widget_id : string) :
  In widget_id (map identifier (widgets load)) ->
  exists widget,
    In widget (widgets load)
    /\ identifier widget = widget_id
    /\ dict_getitem (WIDGETS_BY_ID load) widget_id = Return widget.
Proof.
  intros Hin. apply in_map_iff in Hin as (widget & <- & Hin).
  exists widget. split; [exact Hin|]. split; [reflexivity|].
  unfold dict_getitem. now rewrite by_id_hit.
Qed.

Lemma length_slice_to {A : Type} (n : Z) (l : list A) :
  0 <= n -> length (slice_to n l) = Nat.min (Z.to_nat n) (length l).
Proof.
  intros Hn. unfold slice_to.
  destruct (Z.leb_spec 0 n); [|lia]. apply length_firstn.
Qed.

(** X12. With a non-empty string prefix and an integer count,
    [suggest_names] answers without error; every name it suggests is one
    of the fixed names and begins with the prefix when case is ignored;
    with a count of zero or more it suggests at most that many names, and
    with a count that covers the whole list it leaves out no fixed name
    that begins with the prefix. The text gives the number of names. *)
Theorem suggestions_match_prefix (load : string -> string) (prefix : string)
    (count : Z) :
  PyStr.is_empty prefix = false ->
  exists r names,
    suggest_names load (PStr prefix) (PInt count) = Return (ResultEnvelope r)
    /\ isError r = false
    /\ structured ["backend"; "names"] r = Some (PList (map PStr names))
    /\ structured ["widget"; "names"] r = Some (PList (map PStr names))
    /\ content r
       = [text_content ("Here are " +:+ PyStr.str_of_int (Z.of_nat (length names))
                          +:+ " name suggestions.")]
    /\ (forall n, In n names ->
                  In n base_names
                  /\ PyStr.startswith (PyStr.lower n) (PyStr.lower prefix) = true)
    /\ (0 <= count -> (length names <= Z.to_nat count)%nat)
    /\ (Z.of_nat (length base_names) <= count ->
        forall n, In n base_names ->
                  PyStr.startswith (PyStr.lower n) (PyStr.lower prefix) = true ->
                  In n names).
Proof.
  intros Hprefix. unfold suggest_names.
  destruct (catalog_widget_found load "huggies-names") as (widget & _ & _ & ->);
    [cbn; tauto|].
  cbn [mbind outcome_bind truthy]. rewrite Hprefix.
  cbn [negb meth_lower mbind outcome_bind mret outcome_ret slice_to_val].
  set (kept := List.filter (fun n => PyStr.startswith (PyStr.lower n) (PyStr.lower prefix))
                           base_names).
  eexists. exists (slice_to count kept).
  split; [reflexivity|]. split; [reflexivity|]. split; [reflexivity|].
  split; [reflexivity|]. split; [reflexivity|].
  split; [|split].
  - intros n Hn. apply in_slice_to in Hn. subst kept.
    now apply filter_In in Hn.
  - intros Hcount. rewrite length_slice_to by exact Hcount. lia.
  - intros Hcount n Hn Hstarts.
    assert (Hall : slice_to count kept = kept).
    { unfold slice_to. destruct (Z.leb_spec 0 count); [|lia].
      apply firstn_all2.
      assert (length kept <= length base_names)%nat
        by (subst kept; apply List.filter_length_le).
      lia. }
    rewrite Hall. subst kept. apply filter_In. now split.
Qed.

Lemma suggestions_match_prefix_witness :
  exists r,
    suggest_names Sample.load_html (PStr "Z") (PInt 10) = Return (ResultEnvelope r)
    /\ structured ["backend"; "names"] r = Some (PList [PStr "Zavian"; PStr "Zephyr"]).
Proof.
  destruct (suggestions_match_prefix Sample.load_html "Z" 10 eq_refl)
    as (r & names & Hr & _ & Hnames & _).
  exists r. split; [exact Hr|].
  vm_compute in Hr. injection Hr as <-. reflexivity.
Defined.

(** X13. A prefix that is falsy, absent or empty, filters nothing:
    [suggest_names] then suggests the first names of the fixed list, as
    many as the count says; a prefix that is truthy and not a string makes
    it raise an [AttributeError] for [lower]. *)
Theorem suggestions_without_prefix (load : string -> string) (prefix : pyval)
    (count : nat) :
  match prefix with
  | PStr (String _ _) => True
  | _ =>
      if truthy prefix then
        suggest_names load prefix (PInt (Z.of_nat count))
        = Raise (AttributeError (type_name prefix) "lower")
      else
        exists r,
          suggest_names load prefix (PInt (Z.of_nat count)) = Return (ResultEnvelope r)
          /\ isError r = false
          /\ structured ["backend"; "names"] r
             = Some (PList (map PStr (firstn count base_names)))
          /\ structured ["backend"; "prefix"] r = Some prefix
  end.
Proof.
  destruct (catalog_widget_found load "huggies-names") as (widget & _ & _ & Hw);
    [cbn; tauto|].
  assert (Hfalsy : truthy prefix = false ->
            exists r,
              suggest_names load prefix (PInt (Z.of_nat count)) = Return (ResultEnvelope r)
              /\ isError r = false
              /\ structured ["backend"; "names"] r
                 = Some (PList (map PStr (firstn count base_names)))
              /\ structured ["backend"; "prefix"] r = Some prefix).
  { intros Hf. unfold suggest_names. rewrite Hw. cbn [mbind outcome_bind]. rewrite Hf.
    cbn [negb mbind outcome_bind mret outcome_ret slice_to_val].
    rewrite slice_to_nat.
    eexists. split; [reflexivity|]. repeat split; reflexivity. }
  assert (Htruthy : (forall s, prefix <> PStr s) -> truthy prefix = true ->
            suggest_names load prefix (PInt (Z.of_nat count))
            = Raise (AttributeError (type_name prefix) "lower")).
  { intros Hns Ht. unfold suggest_names. rewrite Hw. cbn [mbind outcome_bind]. rewrite Ht.
    cbn [negb]. destruct prefix as [| | | |s| |]; try reflexivity. now destruct (Hns s). }
  destruct prefix as [|b|n|x|s|l|d]; [| | | |destruct s as [|c s]| |]; cbv iota;
    try exact I;
    (destruct (truthy _) eqn:E;
     [apply Htruthy; [discriminate|reflexivity]|apply Hfalsy; reflexivity]).
Qed.

(** ** The store locator *)

(** X14. With an integer limit of zero or more, [map_widget] answers
    without error with as many markers as the limit allows, five at most;
    the same markers are in the backend and in the widget; they name the
    fixed retailers in their fixed order whatever the random source
    yields; every marker carries the postal code, or ["00000"] when none
    is given, and the fixed phone number; the text gives the number of
    markers and the place. *)
Theorem store_locator_markers (rt : PyRuntime) (load : string -> string)
    (zip_code location : pyval) (limit : nat) :
  exists r markers,
    map_widget rt load zip_code location (PInt (Z.of_nat limit))
    = Return (ResultEnvelope r)
    /\ isError r = false
    /\ structured ["backend"; "results"] r = Some (PList markers)
    /\ structured ["widget"; "markers"] r = Some (PList markers)
    /\ length markers = Nat.min limit 5
    /\ map (field_at ["name"]) markers
       = map (fun retailer => Some (PStr (fst (fst retailer))))
             (firstn limit example_retailers)
    /\ Forall (fun marker =>
                 field_at ["zip"] marker = Some (py_or zip_code (PStr "00000"))
                 /\ field_at ["phone"] marker = Some (PStr "1800-555-0123"))
              markers
    /\ content r
       = [text_content ("Found " +:+ PyStr.str_of_int (Z.of_nat (length markers))
                          +:+ " retailers near "
                          +:+ py_str rt (py_or (py_or zip_code location) (PStr "your area"))
                          +:+ ".")].
Proof.
  unfold map_widget.
  destruct (catalog_widget_found load "huggies-map") as (widget & _ & _ & ->);
    [cbn; tauto|].
  cbn [mbind outcome_bind slice_to_val mret outcome_ret]. rewrite slice_to_nat.
  destruct limit as [|[|[|[|[|limit]]]]];
    cbn [firstn example_retailers]; rewrite ?firstn_nil; cbn [imap];
    (eexists; eexists; split; [reflexivity|]; split; [reflexivity|];
     split; [reflexivity|]; split; [reflexivity|]; split; [cbn; lia|];
     split; [reflexivity|]; split; [repeat constructor|reflexivity]).
Qed.

(** ** More on the gender prediction *)




(** X16. Whatever its arguments are, [predict_gender] raises nothing and
    sets no error flag: it returns an envelope whose prediction is
    ["boy"], ["girl"] or ["unknown"], and ["unknown"] whenever the due
    date is absent, empty or not a string; both dates come back in the
    backend as they were given. *)
Theorem prediction_is_total (load : string -> string) (due_date conception_date : pyval) :
  exists r prediction,
    predict_gender load due_date conception_date = Return (ResultEnvelope r)
    /\ isError r = false
    /\ structured ["backend"; "prediction"] r = Some (PStr prediction)
    /\ (prediction = "boy" \/ prediction = "girl" \/ prediction = "unknown")
    /\ match due_date with
       | PStr (String _ _) => True
       | _ => prediction = "unknown"
       end
    /\ structured ["backend"; "due_date"] r = Some due_date
    /\ structured ["backend"; "conception_date"] r = Some conception_date.
Proof.
  unfold predict_gender.
  destruct (gender_widget_found load) as (widget & _ & ->).
  cbn [mbind outcome_bind mret outcome_ret]. cbv zeta.
  eexists. eexists. split; [reflexivity|]. split; [reflexivity|].
  split; [reflexivity|]. split; [|split; [|split; reflexivity]].
  - destruct (truthy due_date); [|tauto].
    destruct (meth_split due_date "-") as [parts|e]; cbn [mbind outcome_bind try_or]; [|tauto].
    destruct (getitem_last parts) as [piece|e]; cbn [mbind outcome_bind try_or]; [|tauto].
    destruct (py_int_of_str piece) as [day|e]; cbn [mbind outcome_bind mret outcome_ret try_or];
      [|tauto].
    destruct (day mod 2 =? 1); tauto.
  - destruct due_date as [|b|n|x|s|l|d]; try reflexivity.
    + now destruct b.
    + now destruct (truthy (PInt n)).
    + now destruct (truthy (PFloat x)).
    + now destruct s.
    + now destruct l.
    + now destruct d.
Qed.

(** ** Resources and the indices of the catalog *)

(** X17. The two resource listings advertise the URIs of the catalog, in
    catalog order, and every resource listed can be read: reading its URI
    gives one content entry with that URI, the MIME type and the metadata
    the listing shows, and the markup of the widget the resource is named
    after. *)
Theorem listed_resources_are_readable (load : string -> string) :
  map res_uri (_list_resources load) = map template_uri (widgets load)
  /\ map tpl_uriTemplate (_list_resource_templates load)
     = map res_uri (_list_resources load)
  /\ forall resource,
       In resource (_list_resources load) ->
       exists widget,
         In widget (widgets load)
         /\ res_name resource = title widget
         /\ _handle_read_resource load {| req_uri := res_uri resource |}
            = ReadResourceResponse
                {| contents := [ {| trc_uri := res_uri resource;
                                    trc_mimeType := res_mimeType resource;
                                    trc_text := html widget;
                                    trc_meta := Some (res_meta resource) |} ];
                   rr_meta := None |}.
Proof.
  unfold _list_resources, _list_resource_templates.
  split; [now rewrite map_map|]. split; [now rewrite !map_map|].
  intros resource Hin. apply in_map_iff in Hin as (widget & <- & Hin).
  exists widget. split; [exact Hin|]. split; [reflexivity|].
  unfold _handle_read_resource. cbn [req_uri res_uri res_mimeType res_meta].
  now rewrite by_uri_hit.
Qed.

Lemma listed_resources_are_readable_witness :
  exists entry,
    _handle_read_resource Sample.load_html {| req_uri := "ui://widget/huggies-map.html" |}
    = ReadResourceResponse {| contents := [entry]; rr_meta := None |}
    /\ trc_text entry = Sample.load_html "huggies-map".
Proof.
  destruct (proj2 (proj2 (listed_resources_are_readable Sample.load_html))
              {| res_name := "Store Locator Map";
                 res_title := "Store Locator Map";
                 res_uri := "ui://widget/huggies-map.html";
                 res_description := "Store Locator Map widget markup";
                 res_mimeType := MIME_TYPE;
                 res_meta := [ ("openai/outputTemplate", PStr "ui://widget/huggies-map.html");
                               ("openai/toolInvocation/invoking", PStr "Finding nearby stores");
                               ("openai/toolInvocation/invoked", PStr "Store locations found");
                               ("openai/widgetAccessible", PBool true);
                               ("openai/resultCanProduceWidget", PBool true) ] |})
    as (widget & Hin & Hname & Hread).
  { cbn. tauto. }
  eexists. split; [exact Hread|]. cbn [trc_text].
  cbn in Hin, Hname.
  repeat (destruct Hin as [<-|Hin]; [first [discriminate Hname | reflexivity]|]).
  destruct Hin.
Defined.

Lemma find_unique {A : Type} (key : A -> string) (l : list A) (w : A) :
  NoDup (map key l) -> In w l ->
  List.find (fun x => String.eqb (key x) (key w)) l = Some w.
Proof.
  induction l as [|a t IH]; intros Hnodup Hin; [destruct Hin|].
  cbn [map] in Hnodup. apply NoDup_cons in Hnodup as (Hfresh & Hnodup).
  cbn [List.find]. destruct Hin as [->|Hin].
  - now rewrite String.eqb_refl.
  - destruct (String.eqb_spec (key a) (key w)) as [Heq|_]; [|now apply IH].
    exfalso. apply Hfresh. rewrite Heq.
    apply list_elem_of_In, in_map_iff. now exists w.
Qed.

Lemma index_by_sound (key : HuggiesWidget -> string) (ws : list HuggiesWidget)
    (k : string) (widget : HuggiesWidget) :
  index_by key ws !! k = Some widget -> In widget ws /\ key widget = k.
Proof.
  rewrite index_by_lookup. intros Hfind.
  apply find_some in Hfind as (Hin & Hkey).
  split; [now rewrite in_rev|now apply String.eqb_eq].
Qed.

(** X18. An index built from a list of widgets by a key: whatever a
    lookup returns is a widget of the list with that key; a lookup finds
    nothing exactly when no widget has the key; of several widgets with
    one key the last one is found; and when the keys are pairwise
    distinct, every widget is found under its own key. *)
Theorem index_by_round_trip (key : HuggiesWidget -> string) (ws : list HuggiesWidget) :
  (forall k widget, index_by key ws !! k = Some widget -> In widget ws /\ key widget = k)
  /\ (forall k, index_by key ws !! k = None <-> forall widget, In widget ws -> key widget <> k)
  /\ (forall widget, index_by key (ws ++ [widget]) !! key widget = Some widget)
  /\ (NoDup (map key ws) ->
      forall widget, In widget ws -> index_by key ws !! key widget = Some widget).
Proof.
  split; [|split; [|split]].
  - intros k widget. apply index_by_sound.
  - intros k. rewrite index_by_lookup. split.
    + intros Hnone widget Hin. rewrite in_rev in Hin.
      apply (find_none _ _ Hnone) in Hin. now apply String.eqb_neq.
    + intros Hall. apply find_absent. intros widget Hin.
      apply String.eqb_neq, Hall. now rewrite in_rev.
  - intros widget. rewrite index_by_lookup, rev_app_distr. cbn [rev app List.find].
    now rewrite String.eqb_refl.
  - intros Hnodup widget Hin. rewrite index_by_lookup.
    apply find_unique; [|now rewrite <- in_rev].
    rewrite map_rev. now rewrite <- Permutation_rev.
Qed.

Lemma index_by_round_trip_witness :
  index_by identifier (widgets Sample.load_html) !! "huggies-map"
  = nth_error (widgets Sample.load_html) 2.
Proof.
  cbn [nth_error widgets].
  match goal with
  | |- _ = Some ?w =>
      apply (proj2 (proj2 (proj2 (index_by_round_trip identifier
                                    (widgets Sample.load_html)))) : _ -> forall widget, _)
        with (widget := w)
  end.
  - apply (bool_decide_unpack _). vm_compute. exact I.
  - cbn. tauto.
Defined.

Lemma catalog_keys_distinct (load : string -> string) :
  NoDup (map identifier (widgets load)) /\ NoDup (map template_uri (widgets load)).
Proof.
  split; apply (bool_decide_unpack _); vm_compute; exact I.
Qed.

(** X19. The two indices of the catalog agree with its list: a lookup by
    identifier, or by URI, returns a widget exactly when that widget is in
    the list under that key; so whatever one index returns, the other
    index returns under the other key of the same widget. *)
Theorem catalog_indices_agree (load : string -> string) (widget : HuggiesWidget) :
  (forall widget_id,
      WIDGETS_BY_ID load !! widget_id = Some widget
      <-> In widget (widgets load) /\ identifier widget = widget_id)
  /\ (forall uri,
        WIDGETS_BY_URI load !! uri = Some widget
        <-> In widget (widgets load) /\ template_uri widget = uri)
  /\ (WIDGETS_BY_ID load !! identifier widget = Some widget
      <-> WIDGETS_BY_URI load !! template_uri widget = Some widget).
Proof.
  destruct (catalog_keys_distinct load) as (Hids & Huris).
  assert (Hid : forall widget_id,
             WIDGETS_BY_ID load !! widget_id = Some widget
             <-> In widget (widgets load) /\ identifier widget = widget_id).
  { intros widget_id. unfold WIDGETS_BY_ID. split.
    - apply index_by_sound.
    - intros (Hin & <-). now apply by_id_hit. }
  assert (Huri : forall uri,
             WIDGETS_BY_URI load !! uri = Some widget
             <-> In widget (widgets load) /\ template_uri widget = uri).
  { intros uri. unfold WIDGETS_BY_URI. split.
    - apply index_by_sound.
    - intros (Hin & <-). now apply by_uri_hit. }
  split; [exact Hid|]. split; [exact Huri|].
  rewrite Hid, Huri. tauto.
Qed.

Lemma catalog_indices_agree_witness :
  exists widget,
    WIDGETS_BY_ID Sample.load_html !! "huggies-gender" = Some widget
    /\ WIDGETS_BY_URI Sample.load_html !! "ui://widget/huggies-gender.html" = Some widget.
Proof.
  destruct (WIDGETS_BY_ID Sample.load_html !! "huggies-gender") as [widget|] eqn:E;
    [|vm_compute in E; discriminate E].
  exists widget. split; [reflexivity|].
  destruct (catalog_indices_agree Sample.load_html widget) as (Hid & Huri & _).
  apply Hid in E as (Hin & Hident).
  apply Huri. split; [exact Hin|].
  cbn in Hin.
  repeat (destruct Hin as [<-|Hin]; [first [discriminate Hident | reflexivity]|]).
  destruct Hin.
Defined.

(** ** The loader of the markup *)

Lemma leb_refl (s : string) : String.leb s s = true.
Proof. apply Is_true_true. change (String.le s s). reflexivity. Qed.

Lemma leb_trans (s1 s2 s3 : string) :
  String.leb s1 s2 = true -> String.leb s2 s3 = true -> String.leb s1 s3 = true.
Proof.
  intros H12 H23. apply Is_true_true.
  change (String.le s1 s3). transitivity s2; apply Is_true_true; assumption.
Qed.

Lemma insert_sorted_perm (x : string) (l : list string) :
  Permutation (Assets.insert_sorted x l) (x :: l).
Proof.
  induction l as [|y t IH]; cbn [Assets.insert_sorted]; [reflexivity|].
  destruct (String.leb x y); [reflexivity|].
  rewrite IH. apply perm_swap.
Qed.

Lemma sorted_perm (l : list string) : Permutation (Assets.sorted l) l.
Proof.
  induction l as [|x t IH]; cbn [Assets.sorted fold_right]; [reflexivity|].
  rewrite insert_sorted_perm. now constructor.
Qed.

Lemma insert_sorted_ordered (x : string) (l : list string) :
  StronglySorted (fun a b => String.leb a b = true) l ->
  StronglySorted (fun a b => String.leb a b = true) (Assets.insert_sorted x l).
Proof.
  induction 1 as [|y t Hs IH Hy]; cbn [Assets.insert_sorted].
  - repeat constructor.
  - destruct (String.leb x y) eqn:Hxy.
    + constructor; [now constructor|].
      constructor; [exact Hxy|].
      eapply List.Forall_impl; [|exact Hy].
      intros z Hz. now apply (leb_trans x y z).
    + constructor; [exact IH|].
      rewrite insert_sorted_perm. constructor; [|exact Hy].
      destruct (leb_total x y) as [H|H]; [congruence|exact H].
Qed.

Lemma sorted_ordered (l : list string) :
  StronglySorted (fun a b => String.leb a b = true) (Assets.sorted l).
Proof.
  induction l as [|x t IH]; cbn [Assets.sorted fold_right]; [constructor|].
  now apply insert_sorted_ordered.
Qed.

Lemma last_is_greatest (l : list string) (x : string) :
  StronglySorted (fun a b => String.leb a b = true) l ->
  last l = Some x ->
  In x l /\ Forall (fun y => String.leb y x = true) l.
Proof.
  induction 1 as [|a t Hs IH Ha]; intros Hlast; [discriminate Hlast|].
  destruct t as [|b t'].
  - cbn in Hlast. injection Hlast as <-.
    split; [now left|]. constructor; [apply leb_refl|constructor].
  - change (last (a :: b :: t')) with (last (b :: t')) in Hlast.
    destruct (IH Hlast) as (Hin & Hall).
    split; [now right|]. constructor; [|exact Hall].
    rewrite Forall_forall in Ha. apply Ha. now apply list_elem_of_In.
Qed.

Lemma dict_get_present {V : Type} (d : list (string * V)) (key : string) :
  In key (map fst d) -> exists v, dict_get d key = Some v.
Proof.
  induction d as [|[k v] t IH]; intros Hin; [destruct Hin|].
  cbn [dict_get]. destruct (String.eqb_spec k key) as [_|Hne]; [now exists v|].
  apply IH. destruct Hin as [Hk|Hin]; [contradiction|exact Hin].
Qed.

(** X20. [_load_widget_html] on a directory of assets: when the file
    named after the component exists its text is returned, whatever else
    the directory holds; when it does not, the text returned is that of
    the file which is last in name order among those named with the
    component name, a hyphen, anything and [.html]; when there is no such
    file either, a [FileNotFoundError] is raised. *)
Theorem load_widget_html_fallback (assets_dir : string) (dir : Assets.directory)
    (component_name : string) :
  (forall text,
      Assets.read_text dir (component_name +:+ ".html") = Some text ->
      Assets._load_widget_html assets_dir dir component_name = Return text)
  /\ (Assets.read_text dir (component_name +:+ ".html") = None ->
      (forall file, In file (map fst dir) -> Assets.globbed component_name file = false) ->
      exists msg,
        Assets._load_widget_html assets_dir dir component_name
        = Raise (OtherException "FileNotFoundError" msg))
  /\ (Assets.read_text dir (component_name +:+ ".html") = None ->
      (exists file, In file (map fst dir) /\ Assets.globbed component_name file = true) ->
      exists chosen text,
        Assets._load_widget_html assets_dir dir component_name = Return text
        /\ Assets.read_text dir chosen = Some text
        /\ Assets.globbed component_name chosen = true
        /\ forall other,
             In other (map fst dir) -> Assets.globbed component_name other = true ->
             String.leb other chosen = true).
Proof.
  unfold Assets._load_widget_html. split; [|split].
  - intros text ->. reflexivity.
  - intros -> Hnone. rewrite filter_none by exact Hnone. cbn. eauto.
  - intros -> (file & Hin & Hglob).
    set (candidates := List.filter (Assets.globbed component_name) (map fst dir)).
    assert (Hfile : In file candidates) by (apply filter_In; now split).
    destruct (last (Assets.sorted candidates)) as [chosen|] eqn:Hlast.
    + destruct (last_is_greatest _ _ (sorted_ordered candidates) Hlast) as (Hchosen & Hmax).
      apply (Permutation_in _ (sorted_perm candidates)) in Hchosen.
      apply filter_In in Hchosen as (Hdir & Hchosen).
      destruct (dict_get_present dir chosen Hdir) as (text & Htext).
      unfold Assets.read_text. rewrite Htext.
      exists chosen, text. split; [reflexivity|]. split; [exact Htext|].
      split; [exact Hchosen|].
      intros other Hother Hglobbed.
      rewrite Forall_forall in Hmax. apply Hmax, list_elem_of_In.
      apply (Permutation_in _ (Permutation_sym (sorted_perm candidates))).
      apply filter_In. now split.
    + exfalso. apply last_None in Hlast.
      apply (Permutation_in _ (Permutation_sym (sorted_perm candidates))) in Hfile.
      rewrite Hlast in Hfile. destruct Hfile.
Qed.

Lemma load_widget_html_fallback_witness :
  Assets._load_widget_html "/srv/assets"
    [ ("huggies-map-2f1c.html", "<p>old map</p>");
      ("huggies-cards.html", "<p>cards</p>");
      ("huggies-map-9a0b.html", "<p>new map</p>");
      ("huggies-map-9a0b.js", "render()") ]
    "huggies-map"
  = Return "<p>new map</p>".
Proof.
  destruct (proj2 (proj2 (load_widget_html_fallback "/srv/assets"
              [ ("huggies-map-2f1c.html", "<p>old map</p>");
                ("huggies-cards.html", "<p>cards</p>");
                ("huggies-map-9a0b.html", "<p>new map</p>");
                ("huggies-map-9a0b.js", "render()") ]
              "huggies-map")) eq_refl)
    as (chosen & text & Hload & _).
  { exists "huggies-map-2f1c.html". split; [cbn; tauto|reflexivity]. }
  rewrite Hload. vm_compute in Hload. symmetry. exact Hload.
Defined.

(** ** The registered functions and their widgets *)

Lemma attaches_bind {A : Type} (widget : HuggiesWidget) (m : outcome A)
    (k : A -> outcome handler_result) :
  (forall a, m = Return a -> attaches widget (k a)) -> attaches widget (m ≫= k).
Proof.
  intros Hk hr. destruct m as [a|e]; cbn [mbind outcome_bind]; [|discriminate].
  now apply Hk.
Qed.

Lemma attaches_envelope (widget : HuggiesWidget) (r : CallToolResult) :
  _meta r = Some (_tool_invocation_meta widget) ->
  attaches widget (mret (ResultEnvelope r)).
Proof.
  intros Hmeta hr [= <-]. now exists r.
Qed.

Ltac attach :=
  cbv zeta;
  repeat first
    [ apply attaches_envelope; reflexivity
    | apply attaches_bind; intros ? _
    | match goal with
      | |- attaches _ (if ?b then _ else _) => destruct b
      | |- attaches _ (match ?x with _ => _ end) => destruct x
      end ].

Lemma get_faq_attaches (rt : PyRuntime) (KNOWLEDGE : list KnowledgeRecord)
    (load : string -> string) (query : pyval)
    (widget : HuggiesWidget) :
  In widget (widgets load) -> identifier widget = "huggies-cards" ->
  attaches widget (get_faq rt KNOWLEDGE load query).
Proof.
  intros Hin Hid. unfold get_faq, dict_getitem.
  rewrite <- Hid, (by_id_hit load widget Hin). cbn [mbind outcome_bind]. attach.
Qed.

Lemma list_faqs_attaches (KNOWLEDGE : list KnowledgeRecord) (load : string -> string)
    (widget : HuggiesWidget) :
  In widget (widgets load) -> identifier widget = "huggies-cards" ->
  attaches widget (list_faqs KNOWLEDGE load).
Proof.
  intros Hin Hid. unfold list_faqs, dict_getitem.
  rewrite <- Hid, (by_id_hit load widget Hin). cbn [mbind outcome_bind]. attach.
Qed.

Lemma get_item_by_id_attaches (rt : PyRuntime) (KNOWLEDGE : list KnowledgeRecord)
    (load : string -> string) (item_id : pyval)
    (widget : HuggiesWidget) :
  In widget (widgets load) -> identifier widget = "huggies-cards" ->
  attaches widget (get_item_by_id rt KNOWLEDGE load item_id).
Proof.
  intros Hin Hid. unfold get_item_by_id, dict_getitem.
  rewrite <- Hid, (by_id_hit load widget Hin). cbn [mbind outcome_bind]. attach.
Qed.

Lemma diaper_size_calc_attaches (rt : PyRuntime) (load : string -> string)
    (weight_kg weight_lb : pyval)
    (widget : HuggiesWidget) :
  In widget (widgets load) -> identifier widget = "huggies-size-calc" ->
  attaches widget (diaper_size_calc rt load weight_kg weight_lb).
Proof.
  intros Hin Hid. unfold diaper_size_calc, dict_getitem.
  rewrite <- Hid, (by_id_hit load widget Hin). cbn [mbind outcome_bind]. attach.
Qed.

Lemma map_widget_attaches (rt : PyRuntime) (load : string -> string)
    (zip_code location limit : pyval)
    (widget : HuggiesWidget) :
  In widget (widgets load) -> identifier widget = "huggies-map" ->
  attaches widget (map_widget rt load zip_code location limit).
Proof.
  intros Hin Hid. unfold map_widget, dict_getitem.
  rewrite <- Hid, (by_id_hit load widget Hin). cbn [mbind outcome_bind]. attach.
Qed.

Lemma coupons_attaches (load : string -> string)
    (widget : HuggiesWidget) :
  In widget (widgets load) -> identifier widget = "huggies-offers" ->
  attaches widget (coupons load).
Proof.
  intros Hin Hid. unfold coupons, dict_getitem.
  rewrite <- Hid, (by_id_hit load widget Hin). cbn [mbind outcome_bind]. attach.
Qed.

Lemma suggest_names_attaches (load : string -> string) (prefix count : pyval)
    (widget : HuggiesWidget) :
  In widget (widgets load) -> identifier widget = "huggies-names" ->
  attaches widget (suggest_names load prefix count).
Proof.
  intros Hin Hid. unfold suggest_names, dict_getitem.
  rewrite <- Hid, (by_id_hit load widget Hin). cbn [mbind outcome_bind]. attach.
Qed.

Lemma predict_gender_attaches (load : string -> string) (due_date conception_date : pyval)
    (widget : HuggiesWidget) :
  In widget (widgets load) -> identifier widget = "huggies-gender" ->
  attaches widget (predict_gender load due_date conception_date).
Proof.
  intros Hin Hid. unfold predict_gender, dict_getitem.
  rewrite <- Hid, (by_id_hit load widget Hin). cbn [mbind outcome_bind]. attach.
Qed.

Lemma call_runs_body (f : Function) (kwargs : gmap string pyval) (hr : handler_result) :
  call f kwargs = Return hr -> exists arg, fn_body f arg = Return hr.
Proof.
  unfold call.
  destruct (List.filter _ (map fst (map_to_list kwargs))); [|discriminate].
  destruct (List.filter _ (fn_params f)); [|discriminate].
  eauto.
Qed.

(** Each function of the server's registry attaches the metadata of the
    widget its name is bound to. *)
Lemma registered_function_attaches (rt : PyRuntime) (KNOWLEDGE : list KnowledgeRecord)
    (load : string -> string) (name : string) (f : Function) :
  mjoin (dict_get (_TOOL_FUNCTIONS rt KNOWLEDGE load) name) = Some f ->
  exists widget,
    In widget (widgets load)
    /\ tool_to_widget !! name = Some (identifier widget)
    /\ forall arg, attaches widget (fn_body f arg).
Proof.
  rewrite registry_content. cbn [dict_get].
  repeat match goal with
         | |- context [String.eqb ?a name] =>
             destruct (String.eqb_spec a name) as [<-|?]
         end;
    cbn [mjoin option_join]; intros Hf; try discriminate Hf; injection Hf as <-;
    match goal with
    | |- context [tool_to_widget !! ?n] =>
        let id := eval vm_compute in (default "" (tool_to_widget !! n)) in
        destruct (catalog_widget_found load id) as (widget & Hin & Hid & _);
        [cbn; tauto|];
        exists widget; split; [exact Hin|]; split; [now rewrite Hid|]
    end;
    intros arg; cbn [fn_body get_faq_fn list_faqs_fn get_item_by_id_fn diaper_size_calc_fn
                       map_widget_fn coupons_fn suggest_names_fn predict_gender_fn].
  - now apply get_faq_attaches.
  - now apply list_faqs_attaches.
  - now apply get_item_by_id_attaches.
  - now apply diaper_size_calc_attaches.
  - now apply map_widget_attaches.
  - now apply coupons_attaches.
  - now apply suggest_names_attaches.
  - now apply predict_gender_attaches.
Qed.

(** X21. On the server's own registry the fill-in of the dispatcher is
    never needed: whenever the function of a registered tool returns, it
    returns an envelope that already carries the invoking and invoked
    labels of the widget the tool is bound to, and the dispatcher passes
    that envelope on unchanged. *)
Theorem registered_handlers_attach_their_binding (rt : PyRuntime)
    (KNOWLEDGE : list KnowledgeRecord) (load : string -> string)
    (req : CallToolRequest) (tool_func : Function) (hr : handler_result) :
  mjoin (dict_get (_TOOL_FUNCTIONS rt KNOWLEDGE load) (req_name req)) = Some tool_func ->
  call tool_func (default ∅ (req_arguments req)) = Return hr ->
  exists result widget,
    hr = ResultEnvelope result
    /\ In widget (widgets load)
    /\ tool_to_widget !! req_name req = Some (identifier widget)
    /\ _meta result = Some (_tool_invocation_meta widget)
    /\ _call_tool_request rt load (_TOOL_FUNCTIONS rt KNOWLEDGE load) req
       = Return (CallToolResponse result).
Proof.
  intros Hfound Hcall.
  destruct (registered_function_attaches rt KNOWLEDGE load _ _ Hfound)
    as (widget & Hin & Hbound & Hattach).
  destruct (call_runs_body _ _ _ Hcall) as (arg & Hbody).
  destruct (Hattach arg hr Hbody) as (result & -> & Hmeta).
  exists result, widget. repeat split; try assumption.
  now apply (envelope_is_passed_on rt load _ req tool_func).
Qed.

Lemma registered_handlers_attach_their_binding_witness :
  exists result,
    _call_tool_request Sample.runtime Sample.load_html Sample.registry
      (Sample.call_request "get_item_by_id" [ ("item_id", PStr "faq-999") ])
    = Return (CallToolResponse result)
    /\ isError result = true
    /\ _meta result
       = Some [ ("openai/toolInvocation/invoking", PStr "Searching FAQs");
                ("openai/toolInvocation/invoked", PStr "Found FAQ results") ].
Proof.
  destruct (call (get_item_by_id_fn Sample.runtime Sample.knowledge Sample.load_html)
              (default ∅ (req_arguments
                            (Sample.call_request "get_item_by_id"
                               [ ("item_id", PStr "faq-999") ])))) as [hr|e] eqn:Hcall;
    [|vm_compute in Hcall; discriminate Hcall].
  destruct (registered_handlers_attach_their_binding Sample.runtime Sample.knowledge
              Sample.load_html
              (Sample.call_request "get_item_by_id" [ ("item_id", PStr "faq-999") ])
              _ hr eq_refl Hcall)
    as (result & widget & -> & _ & _ & _ & Hresp).
  exists result. split; [exact Hresp|].
  vm_compute in Hcall. injection Hcall as <-. split; reflexivity.
Defined.

(** ** More on the listing and on the dispatcher *)

(** A name the table does not bind gets the first widget of the catalog. *)
Lemma unbound_widget_is_first (load : string -> string) (name : string) :
  tool_to_widget !! name = None -> bound_widget load name = Return (head (widgets load)).
Proof.
  intros Hnone. unfold bound_widget. now rewrite Hnone.
Qed.

(** X22. Whatever the registry holds, [_list_tools] raises nothing: it
    lists one tool per name that maps to a function, in registry order,
    and skips the names that map to [None]; a tool is described by the
    docstring of its function, or by its name when there is none, carries
    the three fixed annotations, and gets the full metadata (output
    template, invoking and invoked labels, the two widget flags) of the
    widget its name is bound to, of the first widget of the catalog when
    it is bound to none. *)
Theorem listing_skips_unset_entries (load : string -> string)
    (registry : list (string * option Function)) :
  exists tools,
    _list_tools load registry = Return tools
    /\ Forall2 (fun tool entry =>
                  tool_name tool = fst entry
                  /\ tool_description tool = doc_or_name (fst entry) (snd entry)
                  /\ annotations tool = [ ("destructiveHint", false);
                                          ("openWorldHint", false);
                                          ("readOnlyHint", true) ]
                  /\ exists widget,
                       In widget (widgets load)
                       /\ (forall widget_id,
                             tool_to_widget !! fst entry = Some widget_id ->
                             identifier widget = widget_id)
                       /\ (tool_to_widget !! fst entry = None -> head (widgets load) = Some widget)
                       /\ tool_meta tool
                          = [ ("openai/outputTemplate", PStr (template_uri widget));
                              ("openai/toolInvocation/invoking", PStr (invoking widget));
                              ("openai/toolInvocation/invoked", PStr (invoked widget));
                              ("openai/widgetAccessible", PBool true);
                              ("openai/resultCanProduceWidget", PBool true) ])
               tools (registered registry).
Proof.
  unfold _list_tools.
  match goal with |- context [fold_left ?body _ _] => set (step := body) end.
  change (mret []) with (Return (A:=list Tool) []).
  assert (Hloop : forall acc : list Tool,
             exists tools,
               fold_left step registry (Return acc) = Return (acc ++ tools)%list
               /\ Forall2 (fun tool entry =>
                             tool_name tool = fst entry
                             /\ tool_description tool = doc_or_name (fst entry) (snd entry)
                             /\ annotations tool = [ ("destructiveHint", false);
                                                     ("openWorldHint", false);
                                                     ("readOnlyHint", true) ]
                             /\ exists widget,
                                  In widget (widgets load)
                                  /\ (forall widget_id,
                                        tool_to_widget !! fst entry = Some widget_id ->
                                        identifier widget = widget_id)
                                  /\ (tool_to_widget !! fst entry = None -> head (widgets load) = Some widget)
                                  /\ tool_meta tool
                                     = [ ("openai/outputTemplate", PStr (template_uri widget));
                                         ("openai/toolInvocation/invoking", PStr (invoking widget));
                                         ("openai/toolInvocation/invoked", PStr (invoked widget));
                                         ("openai/widgetAccessible", PBool true);
                                         ("openai/resultCanProduceWidget", PBool true) ])
                          tools (registered registry)).
  { induction registry as [|[name [f|]] t IH]; intros acc; cbn [fold_left].
    - exists []. split; [now rewrite app_nil_r|constructor].
    - destruct (bound_widget_found load name) as (widget & Hw & Hin & Hbound).
      assert (Hstep : exists tool,
                 step (Return acc) (name, Some f) = Return (acc ++ [tool])%list
                 /\ tool_name tool = name
                 /\ tool_description tool = doc_or_name name f
                 /\ annotations tool = [ ("destructiveHint", false);
                                         ("openWorldHint", false);
                                         ("readOnlyHint", true) ]
                 /\ tool_meta tool = _tool_meta widget).
      { subst step. cbn [mbind outcome_bind]. rewrite Hw.
        cbn [mbind outcome_bind on_widget mret outcome_ret].
        eexists. split; [reflexivity|]. repeat split; reflexivity. }
      destruct Hstep as (tool & -> & Hname & Hdoc & Hann & Hmeta).
      destruct (IH (acc ++ [tool])%list) as (tools & Hloop & Hrel).
      exists (tool :: tools). split.
      + rewrite Hloop, <- app_assoc. reflexivity.
      + unfold registered. cbn [flat_map snd fst app].
        constructor; [|exact Hrel].
        split; [exact Hname|]. split; [exact Hdoc|]. split; [exact Hann|].
        exists widget. split; [exact Hin|]. split; [exact Hbound|].
        split; [|exact Hmeta].
        intros Hnone. rewrite (unbound_widget_is_first load name Hnone) in Hw.
        congruence.
    - change (step (Return acc) (name, None)) with (Return (A:=list Tool) acc).
      destruct (IH acc) as (tools & Hloop & Hrel). exists tools.
      split; [exact Hloop|exact Hrel]. }
  destruct (Hloop []) as (tools & Hfold & Hrel).
  exists tools. split; [exact Hfold|exact Hrel].
Qed.

Lemma listing_skips_unset_entries_witness :
  exists tools,
    _list_tools Sample.load_html
      [ ("get_faq", None); ("silent", Some Sample.silent_fn);
        ("coupons", Some Sample.silent_fn) ]
    = Return tools
    /\ map tool_name tools = [ "silent"; "coupons" ]
    /\ map tool_description tools = [ "silent"; "coupons" ]
    /\ map tool_meta tools
       = [ [ ("openai/outputTemplate", PStr "ui://widget/huggies-cards.html");
             ("openai/toolInvocation/invoking", PStr "Searching FAQs");
             ("openai/toolInvocation/invoked", PStr "Found FAQ results");
             ("openai/widgetAccessible", PBool true);
             ("openai/resultCanProduceWidget", PBool true) ];
           [ ("openai/outputTemplate", PStr "ui://widget/huggies-offers.html");
             ("openai/toolInvocation/invoking", PStr "Loading current offers");
             ("openai/toolInvocation/invoked", PStr "Offers displayed");
             ("openai/widgetAccessible", PBool true);
             ("openai/resultCanProduceWidget", PBool true) ] ].
Proof.
  destruct (listing_skips_unset_entries Sample.load_html
              [ ("get_faq", None); ("silent", Some Sample.silent_fn);
                ("coupons", Some Sample.silent_fn) ])
    as (tools & Hlist & _).
  exists tools. split; [exact Hlist|].
  vm_compute in Hlist. injection Hlist as <-. repeat split; reflexivity.
Defined.

Lemma filter_some {A : Type} (p : A -> bool) (l : list A) (x : A) :
  In x l -> p x = true -> List.filter p l <> [].
Proof.
  intros Hin Hp Hnil.
  assert (Hx : In x (List.filter p l)) by (apply filter_In; now split).
  rewrite Hnil in Hx. destruct Hx.
Qed.

(** X23. The dispatcher checks no argument itself; a call binds them as
    Python does. A request that names an argument the function does not
    declare is answered with the error envelope for the [TypeError] that
    lists such arguments, and the function does not run; a request whose
    arguments are all declared but that leaves out a parameter without
    default is answered with the error envelope for the [TypeError] that
    lists the parameters left out. *)
Theorem binding_errors_are_answered (rt : PyRuntime) (load : string -> string)
    (registry : list (string * option Function)) (req : CallToolRequest)
    (tool_func : Function) :
  let kwargs := default ∅ (req_arguments req) in
  let names := map param_name (fn_params tool_func) in
  mjoin (dict_get registry (req_name req)) = Some tool_func ->
  ((exists k, k ∈ dom kwargs /\ ~ In k names) ->
   exists unexpected,
     unexpected <> []
     /\ (forall k, In k unexpected <-> k ∈ dom kwargs /\ ~ In k names)
     /\ _call_tool_request rt load registry req
        = Return (CallToolResponse
                    (error_envelope
                       ("Tool execution error: "
                          +:+ str_of_exn rt
                                (TypeError_unexpected_keyword (fn_name tool_func) unexpected)))))
  /\ ((forall k, k ∈ dom kwargs -> In k names) ->
      (exists p, In p (fn_params tool_func)
                 /\ param_default p = None /\ kwargs !! param_name p = None) ->
      exists missing,
        missing <> []
        /\ (forall p, In p missing <->
                      In p (fn_params tool_func)
                      /\ param_default p = None /\ kwargs !! param_name p = None)
        /\ _call_tool_request rt load registry req
           = Return (CallToolResponse
                       (error_envelope
                          ("Tool execution error: "
                             +:+ str_of_exn rt
                                   (TypeError_missing_argument (fn_name tool_func)
                                      (map param_name missing)))))).
Proof.
  intros kwargs names Hfound.
  assert (Hkeys : forall k, In k (map fst (map_to_list kwargs)) <-> k ∈ dom kwargs).
  { intros k. rewrite in_map_iff, elem_of_dom. split.
    - intros ((k' & v) & <- & Hkv). exists v.
      now apply elem_of_map_to_list, list_elem_of_In.
    - intros (v & Hv). exists (k, v). split; [reflexivity|].
      now apply list_elem_of_In, elem_of_map_to_list. }
  assert (Hname : forall k, negb (has_name names k) = true <-> ~ In k names).
  { intros k. unfold has_name. rewrite negb_true_iff.
    split.
    - intros Hnone Hin. apply not_true_iff_false in Hnone. apply Hnone.
      apply existsb_exists. exists k. split; [exact Hin|apply String.eqb_refl].
    - intros Hnot. apply not_true_iff_false. intros Hex.
      apply existsb_exists in Hex as (k' & Hin & Heq).
      apply String.eqb_eq in Heq as ->. contradiction. }
  split.
  - intros (k & Hk & Hnot).
    exists (List.filter (fun k => negb (has_name names k)) (map fst (map_to_list kwargs))).
    split; [|split].
    + apply (filter_some _ _ k); [now apply Hkeys|now apply Hname].
    + intros k'. rewrite filter_In, Hkeys, Hname. reflexivity.
    + unfold _call_tool_request. rewrite Hfound. fold kwargs. unfold call. fold names.
      destruct (List.filter (fun k => negb (has_name names k)) (map fst (map_to_list kwargs)))
        as [|k0 ks] eqn:E; [|reflexivity].
      exfalso. revert E. apply (filter_some _ _ k); [now apply Hkeys|now apply Hname].
  - intros Hall (p & Hp & Hdefault & Habsent).
    set (test := fun p : SigParameter =>
                   match param_default p, kwargs !! param_name p with
                   | None, None => true
                   | _, _ => false
                   end).
    assert (Htest : forall q, test q = true
                              <-> param_default q = None /\ kwargs !! param_name q = None).
    { intros q. unfold test.
      destruct (param_default q), (kwargs !! param_name q); split;
        intros H; try discriminate H; try (destruct H; discriminate); auto. }
    exists (List.filter test (fn_params tool_func)).
    split; [|split].
    + apply (filter_some _ _ p); [exact Hp|now apply Htest].
    + intros q. rewrite filter_In, Htest. tauto.
    + unfold _call_tool_request. rewrite Hfound. fold kwargs. unfold call. fold names.
      rewrite (filter_none _ (map fst (map_to_list kwargs))).
      2: { intros k Hk. apply not_true_iff_false. rewrite Hname.
           intros Hnot. apply Hnot, Hall. now apply Hkeys. }
      fold test.
      destruct (List.filter test (fn_params tool_func)) as [|p0 ps] eqn:E; [|reflexivity].
      exfalso. revert E. apply (filter_some _ _ p); [exact Hp|now apply Htest].
Qed.

Lemma binding_errors_are_answered_witness :
  _call_tool_request Sample.runtime Sample.load_html Sample.registry
    (Sample.call_request "coupons" [ ("region", PStr "IN") ])
  = Return (CallToolResponse
              (error_envelope
                 "Tool execution error: coupons() got an unexpected keyword argument 'region'"))
  /\ _call_tool_request Sample.runtime Sample.load_html Sample.registry
       (Sample.call_request "get_item_by_id" [])
     = Return (CallToolResponse
                 (error_envelope
                    "Tool execution error: get_item_by_id() missing 1 required positional argument: 'item_id'")).
Proof.
  split.
  - destruct (proj1 (binding_errors_are_answered Sample.runtime Sample.load_html
                       Sample.registry
                       (Sample.call_request "coupons" [ ("region", PStr "IN") ])
                       (coupons_fn Sample.load_html) eq_refl))
      as (unexpected & _ & _ & Hresp).
    { exists "region". split; [|intros []].
      apply elem_of_dom. exists (PStr "IN"). reflexivity. }
    rewrite Hresp. vm_compute in Hresp. injection Hresp as Hresp.
    vm_compute. now rewrite <- Hresp.
  - destruct (proj2 (binding_errors_are_answered Sample.runtime Sample.load_html
                       Sample.registry
                       (Sample.call_request "get_item_by_id" [])
                       (get_item_by_id_fn Sample.runtime Sample.knowledge Sample.load_html)
                       eq_refl))
      as (missing & _ & _ & Hresp).
    { intros k Hk. apply elem_of_dom in Hk as (v & Hv). discriminate Hv. }
    { eexists. split; [now left|]. split; reflexivity. }
    rewrite Hresp. vm_compute in Hresp. injection Hresp as Hresp.
    vm_compute. now rewrite <- Hresp.
Defined.

(** X24. Asking [keyword_search] for more results never changes the
    earlier ones: the answer for a smaller [top_n] is the beginning of
    the answer for a larger one. *)
Theorem smaller_top_n_is_a_prefix (KNOWLEDGE : list KnowledgeRecord) (query : string)
    (top_n more : nat) :
  (top_n <= more)%nat ->
  keyword_search KNOWLEDGE query (Z.of_nat top_n)
  = firstn top_n (keyword_search KNOWLEDGE query (Z.of_nat more)).
Proof.
  intros Hle. rewrite !ranked_hits, !slice_to_nat, firstn_firstn.
  now rewrite Nat.min_l.
Qed.

Lemma smaller_top_n_is_a_prefix_witness :
  keyword_search Sample.knowledge "diaper" 1
  = firstn 1 (keyword_search Sample.knowledge "diaper" 3).
Proof.
  apply (smaller_top_n_is_a_prefix Sample.knowledge "diaper" 1 3). lia.
Defined.
